(** * plugin.ini editor: the configuration round trip

    A shallow embedding of the pure core of [plugin_editor.py]: the colour
    helpers [ini_to_tk], [tk_to_ini] and [rgb_to_ini], the line parser
    [parse_ini], the filename rule [apply_filename_rules] and the serialiser
    [rebuild_ini].

    Python strings are modelled as [string]; a character is a code point
    below 256.  The dictionary of skills is a [gmap] from identifier to a
    record of three optional strings ([None] is Python's [None]). *)

From Stdlib Require Import Ascii NArith Lia.
From Stdlib Require String.
From stdpp Require Import gmap strings list sorting fin_maps.
From Equations Require Import Equations.

(** ** Python string primitives *)

Module PyStr.

Definition code (c : ascii) : N := N_of_ascii c.

(** [str.isspace] on code points below 256. *)
Definition is_space (c : ascii) : bool :=
  let n := code c in
  ((9 <=? n) && (n <=? 13) || (28 <=? n) && (n <=? 32)
   || (n =? 133) || (n =? 160))%N.

(** The line boundaries of [str.splitlines] below 256. *)
Definition is_linebreak (c : ascii) : bool :=
  let n := code c in
  ((10 <=? n) && (n <=? 13) || (28 <=? n) && (n <=? 30) || (n =? 133))%N.

Definition LF : ascii := "010"%char.
Definition CR : ascii := "013"%char.

(** [str.lower] and [str.upper], character by character: the ASCII letters
    and the Latin-1 letters.  The three letters whose uppercase form lies
    beyond 255 (micro sign, sharp s, y with diaeresis) are left as they are. *)
Definition lower_char (c : ascii) : ascii :=
  let n := code c in
  if ((65 <=? n) && (n <=? 90)
      || (192 <=? n) && (n <=? 222) && negb (n =? 215))%N
  then ascii_of_N (n + 32) else c.

Definition upper_char (c : ascii) : ascii :=
  let n := code c in
  if ((97 <=? n) && (n <=? 122)
      || (224 <=? n) && (n <=? 254) && negb (n =? 247))%N
  then ascii_of_N (n - 32) else c.

Fixpoint map (f : ascii → ascii) (s : string) : string :=
  match s with
  | "" => ""
  | String c s' => String (f c) (map f s')
  end.

Definition lower : string → string := map lower_char.
Definition upper : string → string := map upper_char.

(** [s.replace(c, "")] for a one-character [c]. *)
Fixpoint remove (d : ascii) (s : string) : string :=
  match s with
  | "" => ""
  | String c s' => if Ascii.eqb c d then remove d s' else String c (remove d s')
  end.

Fixpoint lstrip (s : string) : string :=
  match s with
  | "" => ""
  | String c s' => if is_space c then lstrip s' else s
  end.

Fixpoint rstrip (s : string) : string :=
  match s with
  | "" => ""
  | String c s' =>
      match rstrip s' with
      | "" => if is_space c then "" else String c ""
      | r => String c r
      end
  end.

(** [s.strip()] *)
Definition strip (s : string) : string := lstrip (rstrip s).

(** [s.startswith(p)] and [s.endswith(p)] *)
Fixpoint startswith (s p : string) {struct p} : bool :=
  match p, s with
  | "", _ => true
  | String a p', String b s' => Ascii.eqb b a && startswith s' p'
  | String _ _, "" => false
  end.
#[global] Arguments startswith : simpl nomatch.
Definition endswith (s p : string) : bool :=
  startswith (String.rev s) (String.rev p).

(** [s[i:]] and [s[i:j]] for non-negative [i ≤ j]; [s[1:-1]]. *)
Definition slice_from (i : nat) (s : string) : string :=
  String.substring i (String.length s - i) s.
Definition slice (i j : nat) (s : string) : string :=
  String.substring i (j - i) s.
Definition slice_inner (s : string) : string :=
  String.substring 1 (String.length s - 2) s.

(** [d in s] together with [s.split(d, 1)]: [None] when [d] does not
    occur, otherwise the text before and after its first occurrence. *)
Fixpoint split_once (d : ascii) (s : string) : option (string * string) :=
  match s with
  | "" => None
  | String c s' =>
      if Ascii.eqb c d then Some ("", s')
      else match split_once d s' with
           | Some (a, b) => Some (String c a, b)
           | None => None
           end
  end.

(** [text.splitlines()]: a CR LF pair is one boundary, and no empty line
    is produced after a final boundary. *)
Fixpoint splitlines (s : string) : list string :=
  match s with
  | "" => []
  | String c s' =>
      if is_linebreak c then
        "" :: match s' with
              | String c' s'' =>
                  if Ascii.eqb c CR && Ascii.eqb c' LF
                  then splitlines s'' else splitlines s'
              | "" => []
              end
      else match splitlines s' with
           | [] => [String c ""]
           | l :: ls => String c l :: ls
           end
  end.

(** ["\n".join(lines)] *)
Definition join_lines (lines : list string) : string :=
  String.concat (String LF "") lines.

(** Truthiness of a value that is [None] or a [str]. *)
Definition truthy (v : option string) : bool :=
  match v with
  | Some s => negb (String.eqb s "")
  | None => false
  end.

(** [f"{v}"] for a value that is [None] or a [str]. *)
Definition format (v : option string) : string := default "None" v.

End PyStr.

Import PyStr.

(** ** Colour helpers *)

(** The helpers receive [None] or a [str]; a method call on [None] raises. *)
Inductive exn := AttributeError | TypeError.

Inductive result (A : Type) :=
| Ok (a : A)
| Raise (e : exn).
Arguments Ok {A} a.
Arguments Raise {A} e.

#[global] Instance result_ret : MRet result := λ A, Ok.
#[global] Instance result_bind : MBind result := λ A B k r,
  match r with
  | Ok a => k a
  | Raise e => Raise e
  end.

Definition py_startswith (v : option string) (p : string) : result bool :=
  match v with
  | Some s => Ok (startswith s p)
  | None => Raise AttributeError
  end.

Definition py_len (v : option string) : result nat :=
  match v with
  | Some s => Ok (String.length s)
  | None => Raise TypeError
  end.

Definition py_slice_from (i : nat) (v : option string) : result string :=
  match v with
  | Some s => Ok (slice_from i s)
  | None => Raise TypeError
  end.

Definition py_slice (i j : nat) (v : option string) : result string :=
  match v with
  | Some s => Ok (slice i j s)
  | None => Raise TypeError
  end.

(** Short-circuit [a or b] and [a and b] on booleans. *)
Definition or_else (a : bool) (b : result bool) : result bool :=
  if a then Ok true else b.
Definition and_then (a : bool) (b : result bool) : result bool :=
  if a then b else Ok false.

Definition ini_to_tk (color : option string) : result string :=
  bad ← or_else (negb (truthy color))
          (p ← py_startswith color "0x";
           or_else (negb p) (n ← py_len color; Ok (negb (n =? 10))));
  if (bad : bool) then Ok "#FFFFFF"
  else hexpart ← py_slice_from 4 color;
       Ok ("#" +:+ lower hexpart).

Definition tk_to_ini (hexcolor old_ini_color : option string)
  : result (option string) :=
  match hexcolor with
  | None => Ok old_ini_color
  | Some h =>
      if negb (truthy hexcolor) then Ok old_ini_color
      else
        let h := remove "#" h in
        keep ← and_then (truthy old_ini_color) (py_startswith old_ini_color "0x");
        alpha ← (if (keep : bool) then py_slice 2 4 old_ini_color else Ok "FF");
        Ok (Some ("0x" +:+ alpha +:+ upper h))
  end.

(** [f"{n:02X}"] for a non-negative integer. *)
Definition hex_digit (n : N) : ascii :=
  match String.get (N.to_nat n) "0123456789ABCDEF" with
  | Some c => c
  | None => "0"%char
  end.

Fixpoint hex_upper (fuel : nat) (n : N) : string :=
  match fuel with
  | O => ""
  | S fuel' =>
      (if (n <? 16)%N then "" else hex_upper fuel' (n / 16)%N)
      +:+ String (hex_digit (n mod 16)%N) ""
  end.

Definition format_02X (n : N) : string :=
  let h := hex_upper (S (N.to_nat (N.log2 n))) n in
  if (String.length h <? 2)%nat then "0" +:+ h else h.

Definition rgb_to_ini (r g b : N) (old_ini_color : option string)
  : result string :=
  keep ← and_then (truthy old_ini_color)
           (p ← py_startswith old_ini_color "0x";
            and_then p (n ← py_len old_ini_color; Ok (n =? 10)));
  alpha ← (if (keep : bool) then py_slice 2 4 old_ini_color else Ok "FF");
  Ok ("0x" +:+ alpha +:+ format_02X r +:+ format_02X g +:+ format_02X b).

(** ** The document model *)

(** One value of the [skills] dictionary: [{"comment": .., "image": ..,
    "color": ..}], each field [None] or a string. *)
Record entry := Entry {
  comment : option string;
  image : option string;
  color : option string
}.

Definition empty_entry : entry := Entry None None None.

Definition set_comment (v : option string) (e : entry) : entry :=
  Entry v (image e) (color e).
Definition set_image (v : option string) (e : entry) : entry :=
  Entry (comment e) v (color e).
Definition set_color (v : option string) (e : entry) : entry :=
  Entry (comment e) (image e) v.

Definition CELL_COLOR : string := "LGP::CELL_COLOR".
Definition CELL_IMAGE : string := "LGP::CELL_IMAGE".

(** [stripped.startswith("[") and stripped.endswith("]")] *)
Definition is_header (line : string) : bool :=
  let stripped := strip line in
  startswith stripped "[" && endswith stripped "]".

(** [stripped[1:-1]] *)
Definition header_name (line : string) : string := slice_inner (strip line).

(** [key.startswith("Skill") and len(key) == 9] *)
Definition is_skill_key (key : string) : bool :=
  startswith key "Skill" && (String.length key =? 9).

(** ** Parsing *)

(** The loop variables of [parse_ini]. *)
Record pstate := PState {
  section : option string;
  last_comment : option string;
  skills : gmap string entry
}.

Definition initial : pstate := PState None None ∅.

(** [if key not in skills: skills[key] = {...}] *)
Definition ensure (key : string) (m : gmap string entry) : gmap string entry :=
  match m !! key with
  | Some _ => m
  | None => <[key := empty_entry]> m
  end.

(** The two section tests at the end of the loop body, for a skill key. *)
Definition record_skill (st : pstate) (key value : string) : pstate :=
  let m := ensure key (skills st) in
  let st1 :=
    if decide (section st = Some CELL_COLOR) then
      let m := alter (set_color (Some value)) key m in
      if truthy (last_comment st)
      then PState (section st) None
             (alter (set_comment (last_comment st)) key m)
      else PState (section st) (last_comment st) m
    else PState (section st) (last_comment st) m in
  if decide (section st1 = Some CELL_IMAGE) then
    PState (section st1) (last_comment st1)
      (alter (set_image (Some value)) key (skills st1))
  else st1.

(** One iteration of the [for line in lines] loop. *)
Definition parse_line (st : pstate) (line : string) : pstate :=
  let stripped := strip line in
  if startswith stripped "[" && endswith stripped "]" then
    PState (Some (slice_inner stripped)) None (skills st)
  else if startswith stripped ";" then
    PState (section st) (Some line) (skills st)
  else
    match split_once "=" stripped with
    | Some (key, value) =>
        let key := strip key in
        let value := strip value in
        if is_skill_key key then record_skill st key value else st
    | None => st
    end.

Definition parse_lines (st : pstate) (lines : list string) : pstate :=
  fold_left parse_line lines st.

Definition parse_ini (text : string) : list string * gmap string entry :=
  let lines := splitlines text in
  (lines, skills (parse_lines initial lines)).

(** ** Filename inference *)

(** The body of the loop of [apply_filename_rules] for one item. *)
Definition infer_image (sid : string) (data : entry) : entry :=
  if negb (truthy (image data)) then
    match (if truthy (comment data)
           then comment data ≫= split_once "#" else None) with
    | Some (_, after) => set_image (Some (lower (strip after) +:+ ".bmp")) data
    | None => set_image (Some (lower sid +:+ ".bmp")) data
    end
  else data.

Definition apply_filename_rules (m : gmap string entry) : gmap string entry :=
  map_imap (λ sid data, Some (infer_image sid data)) m.

(** [parseAndInfer]: what the editor does when it loads a file. *)
Definition parse_and_infer (text : string) : list string * gmap string entry :=
  let '(lines, m) := parse_ini text in
  (lines, apply_filename_rules m).

(** ** Rebuilding *)

(** [sorted(skills.keys())] *)
Definition skill_ids (m : gmap string entry) : list string :=
  merge_sort String.le (map_to_list m).*1.

(** The lines appended for one identifier in the image section. *)
Definition image_entry (m : gmap string entry) (sid : string) : list string :=
  match m !! sid with
  | Some data =>
      (if truthy (comment data) then [default "" (comment data)] else [])
      ++ [sid +:+ " = " +:+ format (image data); ""]
  | None => []
  end.

(** The lines appended for one identifier in the colour section. *)
Definition color_entry (m : gmap string entry) (sid : string) : list string :=
  match m !! sid with
  | Some data =>
      if truthy (color data) then
        (if truthy (comment data) then [default "" (comment data)] else [])
        ++ [sid +:+ "=" +:+ format (color data); ""]
      else []
  | None => []
  end.

Definition image_block (m : gmap string entry) : list string :=
  flat_map (image_entry m) (skill_ids m).
Definition color_block (m : gmap string entry) : list string :=
  flat_map (color_entry m) (skill_ids m).

(** The inner [while]: advance to the next header or to the end. *)
Fixpoint skip_body (lines : list string) : list string :=
  match lines with
  | [] => []
  | t :: rest => if is_header t then lines else skip_body rest
  end.

(** The outer [while i < n] loop, on the lines from index [i] on. *)
Equations? rebuild_lines (m : gmap string entry) (lines : list string)
  : list string by wf (length lines) lt :=
  rebuild_lines m [] := [];
  rebuild_lines m (line :: rest) :=
    if is_header line then
      if decide (header_name line = CELL_IMAGE) then
        line :: image_block m ++ rebuild_lines m (skip_body rest)
      else if decide (header_name line = CELL_COLOR) then
        line :: color_block m ++ rebuild_lines m (skip_body rest)
      else line :: rebuild_lines m rest
    else line :: rebuild_lines m rest.
Proof.
  all: simpl; assert (length (skip_body rest) ≤ length rest) as Hskip; [|lia].
  all: clear; induction rest as [|t r IH]; simpl; [lia|].
  all: destruct (is_header t); simpl; lia.
Qed.

Definition rebuild_ini (lines : list string) (m : gmap string entry) : string :=
  join_lines (rebuild_lines m lines) +:+ String LF "".

(** Load, then save without editing: [rebuild] applied to the pair returned
    by [parseAndInfer]. *)
Definition round_trip (text : string) : string :=
  let '(lines, m) := parse_and_infer text in rebuild_ini lines m.

(** ** Notions used to state the properties *)

(** A comment line: [stripped.startswith(";")]. *)
Definition is_comment (line : string) : bool := startswith (strip line) ";".

(** The key and the value of a [key = value] line whose key has the skill
    shape, as the parser computes them. *)
Definition skill_line (line : string) : option (string * string) :=
  match split_once "=" (strip line) with
  | Some (key, value) =>
      if is_skill_key (strip key) then Some (strip key, strip value) else None
  | None => None
  end.

(** The two sections whose bodies the editor owns. *)
Definition managed (sec : option string) : bool :=
  bool_decide (sec = Some CELL_COLOR) || bool_decide (sec = Some CELL_IMAGE).

(** The raw lines outside the bodies of the managed sections, in order,
    scanning from a current section [sec]: every header, and every other
    line that does not follow the header of a managed section. *)
Fixpoint outside_from (sec : option string) (lines : list string) : list string :=
  match lines with
  | [] => []
  | line :: rest =>
      if is_header line then line :: outside_from (Some (header_name line)) rest
      else if managed sec then outside_from sec rest
      else line :: outside_from sec rest
  end.

Definition outside_lines : list string → list string := outside_from None.

(** The lines generated right after a raw line: the regenerated body after
    the header of a managed section, nothing elsewhere. *)
Definition block_after (m : gmap string entry) (line : string) : list string :=
  if is_header line then
    if decide (header_name line = CELL_IMAGE) then image_block m
    else if decide (header_name line = CELL_COLOR) then color_block m
    else []
  else [].

(** The loop of [rebuild_ini] as one scan that remembers the current
    section instead of running the inner [while]. *)
Fixpoint rebuild_scan (m : gmap string entry) (sec : option string)
    (lines : list string) : list string :=
  match lines with
  | [] => []
  | line :: rest =>
      if is_header line then
        line :: block_after m line ++ rebuild_scan m (Some (header_name line)) rest
      else if managed sec then rebuild_scan m sec rest
      else line :: rebuild_scan m sec rest
  end.

(** The values that the skill lines for [key] carry inside the sections
    named [target], in document order, scanning from section [sec]. *)
Fixpoint writes (target key : string) (sec : option string)
    (lines : list string) : list string :=
  match lines with
  | [] => []
  | line :: rest =>
      if is_header line then writes target key (Some (header_name line)) rest
      else
        (if decide (sec = Some target) then
           match skill_line line with
           | Some (k, v) => if decide (k = key) then [v] else []
           | None => []
           end
         else [])
        ++ writes target key sec rest
  end.

(** Every skill line of a colour section carries a non-empty value. *)
Fixpoint colors_present (sec : option string) (lines : list string) : bool :=
  match lines with
  | [] => true
  | line :: rest =>
      if is_header line then colors_present (Some (header_name line)) rest
      else
        (if decide (sec = Some CELL_COLOR) then
           match skill_line line with
           | Some (_, v) => negb (String.eqb v "")
           | None => true
           end
         else true)
        && colors_present sec rest
  end.

(** A well-formed input text: no skill line of a colour section has an empty
    value.  Texts that follow the file format, where each such value is
    [0xAARRGGBB], are well formed. *)
Definition well_formed (text : string) : bool :=
  colors_present None (splitlines text).

(** The number of newline characters at the end of a text. *)
Fixpoint trailing_newlines (s : string) : nat :=
  match s with
  | "" => 0
  | String c s' =>
      let n := trailing_newlines s' in
      if Ascii.eqb c LF && (n =? String.length s') then S n else n
  end.

Definition is_hex (c : ascii) : bool :=
  let n := code c in
  ((48 <=? n) && (n <=? 57) || (65 <=? n) && (n <=? 70)
   || (97 <=? n) && (n <=? 102))%N.

Definition is_lower_hex (c : ascii) : bool :=
  let n := code c in ((97 <=? n) && (n <=? 102))%N.

Fixpoint all_chars (p : ascii → bool) (s : string) : bool :=
  match s with
  | "" => true
  | String c s' => p c && all_chars p s'
  end.

(** The 10-character convention tested by the helpers: the prefix [0x]
    and a total length of 10. *)
Definition stored_ok (v : option string) : bool :=
  match v with
  | Some s => startswith s "0x" && (String.length s =? 10)
  | None => false
  end.

(** A stored colour of the file format: [0x] and eight hex digits of
    either case. *)
Definition valid_stored (c : string) : bool :=
  stored_ok (Some c) && all_chars is_hex (slice_from 2 c).

(** The round trip of the codec through the display form. *)
Definition display_round_trip (c : string) : result (option string) :=
  d ← ini_to_tk (Some c); tk_to_ini (Some d) (Some c).

(** A blank or unrecognised line: no header, no comment, no skill line. *)
Definition inert (line : string) : bool :=
  negb (is_header line) && negb (is_comment line)
  && bool_decide (skill_line line = None).

(** ** Notions used in the proof of the round trip *)

(** A text without spaces at either end. *)
Definition trimmed (s : string) : Prop := lstrip s = s ∧ rstrip s = s.

(** A text without line boundaries. *)
Definition nobreak (s : string) : Prop :=
  all_chars (λ c, negb (is_linebreak c)) s = true.

(** A text in which the character [d] does not occur. *)
Definition lacks (d : ascii) (s : string) : Prop := split_once d s = None.

(** An identifier as the parser stores it. *)
Definition key_ok (k : string) : Prop :=
  is_skill_key k = true ∧ trimmed k ∧ lacks "=" k ∧ nobreak k.

(** A value as the parser stores it, when it is not empty. *)
Definition value_ok (v : string) : Prop := v ≠ "" ∧ trimmed v ∧ nobreak v.

(** An entry of a dictionary parsed from a well-formed text. *)
Definition entry_ok (e : entry) : Prop :=
  (∀ v, color e = Some v → value_ok v)
  ∧ (∀ i, image e = Some i → trimmed i ∧ nobreak i)
  ∧ (∀ c, comment e = Some c →
          is_comment c = true ∧ nobreak c ∧ color e ≠ None).

Definition map_ok (m : gmap string entry) : Prop :=
  ∀ k e, m !! k = Some e → key_ok k ∧ entry_ok e.

Definition state_ok (st : pstate) : Prop :=
  map_ok (skills st)
  ∧ (∀ c, last_comment st = Some c → is_comment c = true ∧ nobreak c).

(** The colour rule of a well-formed text, for one line. *)
Definition color_present (sec : option string) (line : string) : Prop :=
  sec = Some CELL_COLOR → ∀ k v, skill_line line = Some (k, v) → v ≠ "".

(** The section [target] is current at [sec] or opened by a later header. *)
Definition opens (target : string) (sec : option string)
    (lines : list string) : Prop :=
  sec = Some target
  ∨ ∃ h, h ∈ lines ∧ is_header h = true ∧ header_name h = target.

Definition has_header (target : string) (lines : list string) : Prop :=
  ∃ h, h ∈ lines ∧ is_header h = true ∧ header_name h = target.

(** What [apply_filename_rules] hands to the rebuilder. *)
Definition saved_ok (M : gmap string entry) : Prop :=
  ∀ k e, M !! k = Some e →
    key_ok k ∧ entry_ok e ∧ ∃ i, image e = Some i ∧ value_ok i.

(** A dictionary under construction that never disagrees with [M]. *)
Definition below (M T : gmap string entry) : Prop :=
  ∀ k e, T !! k = Some e →
    ∃ e0, M !! k = Some e0
      ∧ (image e = None ∨ image e = image e0)
      ∧ ((color e = None ∧ comment e = None)
         ∨ (color e = color e0 ∧ comment e = comment e0
            ∧ truthy (color e0) = true)).

(** The image, and the colour with its comment, of [k] are those of [M]. *)
Definition image_set (M T : gmap string entry) (k : string) : Prop :=
  ∃ e e0, T !! k = Some e ∧ M !! k = Some e0 ∧ image e = image e0.

Definition color_set (M T : gmap string entry) (k : string) : Prop :=
  ∃ e e0, T !! k = Some e ∧ M !! k = Some e0
    ∧ color e = color e0 ∧ comment e = comment e0.

(** Nothing settled in [T] is lost in [T']. *)
Definition grows (M T T' : gmap string entry) : Prop :=
  (∀ k, is_Some (T !! k) → is_Some (T' !! k))
  ∧ (∀ k, image_set M T k → image_set M T' k)
  ∧ (∀ k, color_set M T k → color_set M T' k).

(** Two lookups of the same key give the same entry. *)
Ltac same_lookup :=
  repeat match goal with
         | H1 : ?m !! ?k = Some ?a, H2 : ?m !! ?k = Some ?b |- _ =>
             rewrite H1 in H2; injection H2 as ?; subst
         | H1 : ?m !! ?k = Some ?a, H2 : ?m !! ?k = None |- _ =>
             rewrite H1 in H2; discriminate
         end.

(** The colour rule of the file format: every skill line of a colour section
    carries a stored colour, [0x] and eight hex digits. *)
Fixpoint colors_valid (sec : option string) (lines : list string) : bool :=
  match lines with
  | [] => true
  | line :: rest =>
      if is_header line then colors_valid (Some (header_name line)) rest
      else
        (if decide (sec = Some CELL_COLOR) then
           match skill_line line with
           | Some (_, v) => valid_stored v
           | None => true
           end
         else true)
        && colors_valid sec rest
  end.

(** ** Sample inputs *)

Definition sample_text : string :=
  join_lines
    ["; plugin"; "[LGP::CELL_COLOR]"; "; #Fireball"; "Skill0002=0xFFFF0000";
     ""; "Skill0001=0xff00ff00"; "[Other]"; "Skill0003 = 5";
     "[LGP::CELL_IMAGE]"; "Skill0001 = old.bmp"]
  +:+ String LF "".

(** A colour line without a value: not a well-formed text. *)
Definition empty_color_text : string :=
  join_lines
    ["[LGP::CELL_COLOR]"; "; #Fireball"; "Skill0002="; "[LGP::CELL_IMAGE]"]
  +:+ String LF "".

(** ** The editor window

    The callbacks of [PluginEditor], reduced to what they do to the loaded
    data and to the files.  A file system is a map from path to the text
    written there; the widgets are left out. *)

Module PluginEditor.

(** The fields [file_path], [original_lines] and [skills] of the editor. *)
Record t := Editor {
  file_path : option string;
  original_lines : list string;
  skills : gmap string entry
}.

(** [__init__] *)
Definition init : t := Editor None [] ∅.

(** [load_ini], for the path returned by the file dialog and the text read
    from that file. *)
Definition load_ini (path text : string) (app : t) : t :=
  if negb (truthy (Some path)) then app
  else
    let '(lines, m) := parse_ini text in
    Editor (Some path) lines (apply_filename_rules m).

(** [save_ini]: the backup is written only if no file has its name. *)
Definition save_ini (app : t) (fs : gmap string string) : gmap string string :=
  if negb (truthy (file_path app)) then fs
  else
    let path := default "" (file_path app) in
    let new_text := rebuild_ini (original_lines app) (skills app) in
    let backup := path +:+ ".bak" in
    let fs :=
      match fs !! backup with
      | Some _ => fs
      | None => <[backup := join_lines (original_lines app)]> fs
      end in
    <[path := new_text]> fs.

(** [open_color_picker_for_row], for the colour [hexcolor] returned by the
    dialog ([None] when it is cancelled). *)
Definition open_color_picker_for_row (sid : string) (hexcolor : option string)
    (m : gmap string entry) : result (gmap string entry) :=
  match m !! sid with
  | None => Ok m
  | Some data =>
      tk_color ← ini_to_tk (color data);
      if truthy hexcolor then
        c ← tk_to_ini hexcolor (color data);
        Ok (<[sid := set_color c data]> m)
      else Ok m
  end.

(** [on_move] of the pipette, for the pixel [(r, g, b)] under the pointer;
    an exception ends the callback without a change. *)
Definition on_move (r g b : N) (data : entry) : entry :=
  match rgb_to_ini r g b (color data) with
  | Ok new_color => set_color (Some new_color) data
  | Raise _ => data
  end.

(** [save_changes] of the edit window opened by [edit_selected] on the row
    [sid], for the texts of the two entry fields; [None] is the [KeyError] of
    [self.skills[sid]]. *)
Definition save_changes (sid img_text color_text : string)
    (m : gmap string entry) : option (gmap string entry) :=
  match m !! sid with
  | None => None
  | Some data =>
      let data := set_image (Some (strip img_text)) data in
      let data := set_color (Some (strip color_text)) data in
      Some (<[sid := data]> m)
  end.

End PluginEditor.

(** ** Checks on a dictionary about to be saved *)

Definition trimmedb (s : string) : bool :=
  String.eqb (lstrip s) s && String.eqb (rstrip s) s.

Definition nobreakb (s : string) : bool :=
  all_chars (λ c, negb (is_linebreak c)) s.

Definition key_check (k : string) : bool :=
  is_skill_key k && trimmedb k
  && match split_once "=" k with None => true | Some _ => false end
  && nobreakb k.

Definition value_check (v : string) : bool :=
  negb (String.eqb v "") && trimmedb v && nobreakb v.

(** The colour, if any, is a non-empty stripped value; the image is one; a
    comment is a comment line and comes with a colour. *)
Definition entry_check (e : entry) : bool :=
  match color e with Some v => value_check v | None => true end
  && match image e with Some i => value_check i | None => false end
  && match comment e with
     | Some c => is_comment c && nobreakb c
                 && match color e with Some _ => true | None => false end
     | None => true
     end.

Definition saved_check (m : gmap string entry) : bool :=
  forallb (λ ke, key_check ke.1 && entry_check ke.2) (map_to_list m).

Definition has_headerb (target : string) (lines : list string) : bool :=
  existsb (λ h, is_header h && String.eqb (header_name h) target) lines.

(** Every skill line of the raw lines names an entry of the dictionary. *)
Definition keys_known (m : gmap string entry) (lines : list string) : bool :=
  forallb (λ line, match skill_line line with
                   | Some (k, _) => match m !! k with
                                    | Some _ => true
                                    | None => false
                                    end
                   | None => true
                   end) lines.

(** Raw lines and a dictionary that a save followed by a load gives back:
    the lines hold both managed headers and no line boundary, and the
    dictionary passes the checks above and knows every key of the lines. *)
Definition saveable (lines : list string) (m : gmap string entry) : bool :=
  forallb nobreakb lines
  && has_headerb CELL_IMAGE lines && has_headerb CELL_COLOR lines
  && keys_known m lines && saved_check m.

(** A byte, as a pixel component. *)
Definition is_byte (n : N) : bool := (n <? 256)%N.

(** A display colour: [#] and six hex digits of either case. *)
Definition valid_display (h : string) : bool :=
  match h with
  | String c h6 =>
      Ascii.eqb c "#" && (String.length h6 =? 6) && all_chars is_hex h6
  | "" => false
  end.

(** The alpha digits that [rgb_to_ini] keeps. *)
Definition alpha_of (old : option string) : string :=
  if stored_ok old then slice 2 4 (default "" old) else "FF".

(** The previous value gives a two-character alpha: it is well formed, or it
    does not start with [0x] and the default is used. *)
Definition alpha_ok (old : option string) : bool :=
  stored_ok old
  || negb (truthy old && match old with
                         | Some o => startswith o "0x"
                         | None => false
                         end).

Definition sample_lines : list string :=
  ["; plugin"; "[LGP::CELL_COLOR]"; "; #Fireball"; "Skill0002=0xFFFF0000";
   "[Other]"; "Skill0003 = 5"; "[LGP::CELL_IMAGE]"; "Skill0001 = old.bmp"].

Definition sample_skills : gmap string entry :=
  {[ "Skill0001" := Entry None (Some "old.bmp") (Some "0x80112233");
     "Skill0002" := Entry (Some "; #Fireball") (Some "fire.bmp")
                      (Some "0xFFFF0000");
     "Skill0003" := Entry None (Some "skill0003.bmp") None ]}.

(** ** Sanity checks of the embedding *)

Example strip_ex : strip "  [LGP::CELL_COLOR] " = "[LGP::CELL_COLOR]".
Proof. reflexivity. Qed.

Example splitlines_ex :
  splitlines
    (String "a" (String CR (String LF (String "b" (String LF (String LF ""))))))
  = ["a"; "b"; ""].
Proof. reflexivity. Qed.

Example split_once_ex :
  split_once "=" "Skill0001 = a=b" = Some ("Skill0001 ", " a=b").
Proof. reflexivity. Qed.

Example ini_to_tk_ex : ini_to_tk (Some "0x80FFAA00") = Ok "#ffaa00".
Proof. reflexivity. Qed.

Example tk_to_ini_ex :
  tk_to_ini (Some "#ffaa00") (Some "0x80112233") = Ok (Some "0x80FFAA00").
Proof. reflexivity. Qed.

Example rgb_to_ini_ex :
  rgb_to_ini 255 10 0 (Some "0x80112233") = Ok "0x80FF0A00".
Proof. reflexivity. Qed.

Example skill_key_length :
  is_skill_key "Skill0001" = true ∧ is_skill_key "Skill001" = false.
Proof. split; reflexivity. Qed.

(** ** The colour codec *)

Section codec.

Lemma hex_char_case c :
  is_hex c = true →
  Ascii.eqb (lower_char c) "#" = false
  ∧ upper_char (lower_char c) = upper_char c
  ∧ (is_lower_hex c = false → upper_char c = c).
Proof.
  destruct c as [[] [] [] [] [] [] [] []]; vm_compute;
    intros; try discriminate; repeat split; congruence.
Qed.

Lemma valid_stored_inv c :
  valid_stored c = true →
  ∃ a1 a2 r1 r2 g1 g2 b1 b2,
    c = String "0" (String "x" (String a1 (String a2 (String r1 (String r2
          (String g1 (String g2 (String b1 (String b2 "")))))))))
    ∧ Forall (λ h, is_hex h = true) [a1; a2; r1; r2; g1; g2; b1; b2].
Proof.
  unfold valid_stored, stored_ok. intros H.
  apply andb_true_iff in H as [H Hhex]. apply andb_true_iff in H as [Hp Hl].
  apply Nat.eqb_eq in Hl.
  do 10 (destruct c as [|? c]; [discriminate|]). destruct c; [|discriminate].
  simpl in Hp. apply andb_true_iff in Hp as [->%Ascii.eqb_eq Hp].
  apply andb_true_iff in Hp as [->%Ascii.eqb_eq _].
  cbn in Hhex. repeat (apply andb_true_iff in Hhex as [? Hhex]).
  do 8 eexists. split; [reflexivity|]. repeat constructor; assumption.
Qed.

Lemma display_round_trip_upper c :
  valid_stored c = true →
  display_round_trip c = Ok (Some (slice 0 4 c +:+ upper (slice_from 4 c))).
Proof.
  intros (a1 & a2 & r1 & r2 & g1 & g2 & b1 & b2 & -> & Hhex)%valid_stored_inv.
  repeat match goal with
         | H : Forall _ (_ :: _) |- _ =>
             apply Forall_cons in H as [(? & ? & _)%hex_char_case H]
         end.
  unfold display_round_trip. cbn. simpl.
  repeat match goal with H : Ascii.eqb _ _ = false |- _ => rewrite H; clear H end.
  cbv [String.append upper PyStr.map]. congruence.
Qed.

End codec.

Example ini_to_tk_not_hex : ini_to_tk (Some "0xFFGGHHII") = Ok "#gghhii".
Proof. reflexivity. Qed.

(** C3 as stated fails: a valid stored colour with lowercase RGB digits does
    not come back unchanged. *)
Lemma display_round_trip_lowercase :
  valid_stored "0xFFabcdef" = true
  ∧ display_round_trip "0xFFabcdef" = Ok (Some "0xFFABCDEF")
  ∧ display_round_trip "0xFFabcdef" ≠ Ok (Some "0xFFabcdef").
Proof. repeat split; discriminate. Qed.

(** C3, amended: for a valid stored colour [c] the round trip through the
    display form returns [c] with its six RGB digits in uppercase and its two
    alpha digits as they were; so it returns [c] itself whenever no RGB digit
    of [c] is a lowercase letter. *)
Theorem display_round_trip_valid c :
  valid_stored c = true →
  display_round_trip c = Ok (Some (slice 0 4 c +:+ upper (slice_from 4 c)))
  ∧ (all_chars (λ h, negb (is_lower_hex h)) (slice_from 4 c) = true →
     display_round_trip c = Ok (Some c)).
Proof.
  intros Hc. split; [by apply display_round_trip_upper|].
  rewrite display_round_trip_upper by done.
  apply valid_stored_inv in Hc
    as (a1 & a2 & r1 & r2 & g1 & g2 & b1 & b2 & -> & Hhex).
  cbn. intros Hup.
  repeat (apply andb_true_iff in Hup as [?%negb_true_iff Hup]).
  do 2 apply Forall_cons in Hhex as [_ Hhex].
  repeat match goal with
         | H : Forall _ (_ :: _) |- _ =>
             apply Forall_cons in H as [(_ & _ & ?)%hex_char_case H]
         end.
  repeat match goal with
         | H : ?P → upper_char _ = _, H' : ?P |- _ => rewrite (H H'); clear H
         end.
  reflexivity.
Qed.

Lemma display_round_trip_valid_witness :
  display_round_trip "0x80FFaa00" = Ok (Some "0x80FFAA00")
  ∧ display_round_trip "0x80FFAA00" = Ok (Some "0x80FFAA00").
Proof.
  split.
  - exact (proj1 (display_round_trip_valid "0x80FFaa00" eq_refl)).
  - exact (proj2 (display_round_trip_valid "0x80FFAA00" eq_refl) eq_refl).
Defined.

(** C5 fails on the code: [tk_to_ini] tests the prefix of the previous value
    but not its length, so a previous value that starts with [0x] and is not
    10 characters long still supplies the alpha digits.  [rgb_to_ini] tests
    both. *)
Theorem tk_to_ini_short_previous :
  stored_ok (Some "0x8") = false
  ∧ tk_to_ini (Some "#112233") (Some "0x8") = Ok (Some "0x8112233")
  ∧ rgb_to_ini 17 34 51 (Some "0x8") = Ok "0xFF112233".
Proof. repeat split. Qed.

(** What [tk_to_ini] does for every non-empty display colour: the alpha is
    [previous[2:4]] as soon as the previous value starts with [0x], and [FF]
    otherwise; the RGB part is the display colour without [#], uppercased. *)
Lemma tk_to_ini_alpha h old :
  h ≠ "" →
  tk_to_ini (Some h) old =
  Ok (Some ("0x" +:+
            (match old with
             | Some o => if startswith o "0x" then slice 2 4 o else "FF"
             | None => "FF"
             end) +:+ upper (remove "#" h))).
Proof.
  intros Hh. unfold tk_to_ini. simpl.
  destruct (String.eqb_spec h ""); [done|]. simpl.
  destruct old as [o|]; [|done].
  unfold truthy, py_startswith, and_then, mbind, result_bind.
  destruct (String.eqb_spec o "") as [->|]; [done|].
  by destruct (startswith o "0x").
Qed.

Lemma ini_to_tk_malformed color :
  stored_ok color = false → ini_to_tk color = Ok "#FFFFFF".
Proof.
  destruct color as [s|]; [|reflexivity].
  unfold stored_ok, ini_to_tk. simpl.
  destruct (String.eqb s ""); simpl; [reflexivity|].
  destruct (startswith s "0x"); simpl; [|reflexivity].
  intros ->. reflexivity.
Qed.

(** C6: every value that is not a well-formed stored colour (it is [None],
    or lacks the prefix [0x], or is not 10 characters long) makes [ini_to_tk]
    return the white fallback, without raising. *)
Theorem ini_to_tk_fallback color :
  stored_ok color = false → ini_to_tk color = Ok "#FFFFFF".
Proof. apply ini_to_tk_malformed. Qed.

Lemma ini_to_tk_fallback_witness :
  ini_to_tk None = Ok "#FFFFFF" ∧ ini_to_tk (Some "0x12345") = Ok "#FFFFFF".
Proof.
  split; [exact (ini_to_tk_fallback None eq_refl)|].
  exact (ini_to_tk_fallback (Some "0x12345") eq_refl).
Defined.

(** [ini_to_tk] raises on no input at all. *)
Lemma ini_to_tk_total color : ∃ d, ini_to_tk color = Ok d.
Proof.
  destruct (stored_ok color) eqn:E.
  - destruct color as [s|]; [|discriminate]. simpl in E.
    apply andb_true_iff in E as [Hp Hl].
    unfold ini_to_tk. simpl. rewrite Hp, Hl. simpl.
    destruct (String.eqb s ""); simpl; eauto.
  - rewrite ini_to_tk_malformed by done. eauto.
Qed.

(** ** Facts about single lines *)

Section line_facts.

Lemma rstrip_head c s :
  is_space c = false → ∃ r, rstrip (String c s) = String c r.
Proof. intros Hc. simpl. rewrite Hc. destruct (rstrip s); eauto. Qed.

Lemma strip_head c s :
  is_space c = false → ∃ r, strip (String c s) = String c r.
Proof.
  intros Hc. unfold strip. destruct (rstrip_head c s Hc) as [r ->].
  simpl. rewrite Hc. eauto.
Qed.

Lemma split_once_head d c s a b :
  split_once d (String c s) = Some (a, b) →
  Ascii.eqb c d = false → ∃ a', a = String c a'.
Proof.
  simpl. intros H Hc. rewrite Hc in H.
  destruct (split_once d s) as [[a' b']|]; [|done].
  injection H as <- <-. eauto.
Qed.

(** A line that opens with a character that is neither a space nor [=] nor
    [S] is not a skill line. *)
Lemma skill_line_head line c t :
  strip line = String c t → is_space c = false →
  Ascii.eqb c "=" = false → Ascii.eqb c "S" = false →
  skill_line line = None.
Proof.
  intros Hs Hsp Heq HS. unfold skill_line. rewrite Hs.
  destruct (split_once "=" (String c t)) as [[key value]|] eqn:E; [|done].
  destruct (split_once_head _ _ _ _ _ E Heq) as [a' ->].
  destruct (strip_head c a' Hsp) as [r ->].
  unfold is_skill_key. simpl. by rewrite HS.
Qed.

Lemma startswith_char s a :
  startswith s (String a "") = true → ∃ t, s = String a t.
Proof.
  destruct s as [|b t]; simpl; [done|].
  rewrite andb_true_r. intros ->%Ascii.eqb_eq. eauto.
Qed.

Lemma is_header_open line :
  is_header line = true → ∃ t, strip line = String "[" t.
Proof.
  unfold is_header. intros [H _]%andb_true_iff. by apply startswith_char.
Qed.

Lemma is_comment_open line :
  is_comment line = true → ∃ t, strip line = String ";" t.
Proof. apply startswith_char. Qed.

Lemma comment_not_header line : is_comment line = true → is_header line = false.
Proof.
  intros [t Ht]%is_comment_open. unfold is_header. by rewrite Ht.
Qed.

Lemma header_not_skill line : is_header line = true → skill_line line = None.
Proof. intros [t Ht]%is_header_open. by eapply skill_line_head. Qed.

Lemma comment_not_skill line : is_comment line = true → skill_line line = None.
Proof. intros [t Ht]%is_comment_open. by eapply skill_line_head. Qed.

Lemma skill_line_plain line kv :
  skill_line line = Some kv → is_header line = false ∧ is_comment line = false.
Proof.
  intros H. split.
  - destruct (is_header line) eqn:E; [|done].
    by rewrite header_not_skill in H.
  - destruct (is_comment line) eqn:E; [|done].
    by rewrite comment_not_skill in H.
Qed.

(** The loop body, by the shape of the line. *)
Lemma parse_line_cases st line :
  parse_line st line =
  if is_header line then PState (Some (header_name line)) None (skills st)
  else if is_comment line then PState (section st) (Some line) (skills st)
  else match skill_line line with
       | Some (key, value) => record_skill st key value
       | None => st
       end.
Proof.
  unfold parse_line, is_header, is_comment, header_name, skill_line.
  destruct (startswith (strip line) "[" && endswith (strip line) "]"); [done|].
  destruct (startswith (strip line) ";"); [done|].
  destruct (split_once "=" (strip line)) as [[key value]|]; [|done].
  by destruct (is_skill_key (strip key)).
Qed.

End line_facts.

(** ** Facts about [record_skill] *)

Section record_facts.

Implicit Types (m : gmap string entry) (st : pstate).

Lemma lookup_ensure m key k :
  ensure key m !! k =
  if decide (key = k) then Some (default empty_entry (m !! key)) else m !! k.
Proof.
  unfold ensure. destruct (m !! key) eqn:E.
  - case_decide; by subst.
  - rewrite lookup_insert. by case_decide.
Qed.

Lemma alter_ensure f m key :
  alter f key (ensure key m) = <[key := f (default empty_entry (m !! key))]> m.
Proof.
  apply map_eq. intros k. rewrite lookup_alter, lookup_insert, !lookup_ensure.
  rewrite (decide_True (P := key = key)) by done. by case_decide.
Qed.

Lemma ensure_insert m key :
  ensure key m = <[key := default empty_entry (m !! key)]> m.
Proof.
  apply map_eq. intros k. rewrite lookup_insert, lookup_ensure. done.
Qed.

Lemma sections_differ : Some CELL_COLOR ≠ Some CELL_IMAGE.
Proof. unfold CELL_COLOR, CELL_IMAGE. discriminate. Qed.

Lemma record_skill_color st key value :
  section st = Some CELL_COLOR →
  record_skill st key value =
  let e := default empty_entry (skills st !! key) in
  PState (section st)
    (if truthy (last_comment st) then None else last_comment st)
    (<[key := Entry (if truthy (last_comment st) then last_comment st
                     else comment e) (image e) (Some value)]> (skills st)).
Proof.
  destruct st as [sec lc m]. simpl. intros ->. unfold record_skill.
  cbn [section last_comment skills].
  rewrite (decide_True (P := Some CELL_COLOR = Some CELL_COLOR)) by done.
  destruct (truthy lc) eqn:E; cbn [section last_comment skills];
    rewrite (decide_False (P := Some CELL_COLOR = Some CELL_IMAGE)) by apply sections_differ;
    f_equal.
  - rewrite alter_ensure. apply map_eq. intros k.
    rewrite lookup_alter, !lookup_insert. case_decide; [|done].
    by rewrite (decide_True (P := key = key)).
  - by rewrite alter_ensure.
Qed.

Lemma record_skill_image st key value :
  section st = Some CELL_IMAGE →
  record_skill st key value =
  PState (section st) (last_comment st)
    (<[key := set_image (Some value) (default empty_entry (skills st !! key))]>
       (skills st)).
Proof.
  destruct st as [sec lc m]. simpl. intros ->. unfold record_skill.
  cbn [section last_comment skills].
  rewrite (decide_False (P := Some CELL_IMAGE = Some CELL_COLOR))
    by (intros ?; by apply sections_differ).
  cbn [section last_comment skills].
  rewrite (decide_True (P := Some CELL_IMAGE = Some CELL_IMAGE)) by done.
  by rewrite alter_ensure.
Qed.

Lemma record_skill_other st key value :
  managed (section st) = false →
  record_skill st key value =
  PState (section st) (last_comment st) (ensure key (skills st)).
Proof.
  unfold managed. intros [H1 H2]%orb_false_iff.
  apply bool_decide_eq_false in H1, H2.
  unfold record_skill. rewrite (decide_False (P := section st = Some CELL_COLOR)) by done.
  cbn [section last_comment skills].
  by rewrite (decide_False (P := section st = Some CELL_IMAGE)) by done.
Qed.

End record_facts.

(** ** The parser, line by line *)

Section parser.

Implicit Types (m : gmap string entry) (st : pstate).

Lemma parse_lines_cons st line lines :
  parse_lines st (line :: lines) = parse_lines (parse_line st line) lines.
Proof. reflexivity. Qed.

Lemma parse_lines_app st l1 l2 :
  parse_lines st (l1 ++ l2) = parse_lines (parse_lines st l1) l2.
Proof. apply fold_left_app. Qed.

Lemma parse_line_inert st line : inert line = true → parse_line st line = st.
Proof.
  unfold inert. intros [[Hh Hc]%andb_true_iff Hs%bool_decide_eq_true]%andb_true_iff.
  apply negb_true_iff in Hh, Hc.
  by rewrite parse_line_cases, Hh, Hc, Hs.
Qed.

Lemma parse_lines_inert st lines :
  Forall (λ x, inert x = true) lines → parse_lines st lines = st.
Proof.
  induction 1 as [|x l Hx _ IH]; [done|].
  by rewrite parse_lines_cons, parse_line_inert.
Qed.

Lemma comment_truthy c : is_comment c = true → truthy (Some c) = true.
Proof. intros [t Ht]%is_comment_open. by destruct c. Qed.

(** What one line does to the pending comment. *)
Lemma last_comment_step st line :
  last_comment (parse_line st line) =
  if is_header line then None
  else if is_comment line then Some line
  else if bool_decide (section st = Some CELL_COLOR)
          && bool_decide (skill_line line ≠ None)
          && truthy (last_comment st)
       then None
       else last_comment st.
Proof.
  rewrite parse_line_cases.
  destruct (is_header line); [done|]. destruct (is_comment line); [done|].
  destruct (skill_line line) as [[key value]|] eqn:E.
  - rewrite (bool_decide_eq_true_2 (Some _ ≠ None)) by done.
    case_bool_decide as Hsec; simpl.
    + rewrite record_skill_color by done. simpl.
      by destruct (truthy (last_comment st)).
    + destruct (decide (section st = Some CELL_IMAGE)).
      * by rewrite record_skill_image.
      * rewrite record_skill_other; [done|]. unfold managed.
        by rewrite !bool_decide_eq_false_2.
  - by rewrite (bool_decide_eq_false_2 (None ≠ None)), andb_false_r by auto.
Qed.

Lemma comment_attaches st c mid l k v :
  section st = Some CELL_COLOR →
  is_comment c = true →
  Forall (λ x, inert x = true) mid →
  skill_line l = Some (k, v) →
  let st' := parse_lines st (c :: mid ++ [l]) in
  skills st' !! k
  = Some (Entry (Some c) (image (default empty_entry (skills st !! k))) (Some v))
  ∧ last_comment st' = None.
Proof.
  intros Hsec Hc Hmid Hl. cbn zeta.
  rewrite parse_lines_cons, parse_lines_app, (parse_lines_inert _ mid) by done.
  cbn [parse_lines fold_left].
  rewrite (parse_line_cases st c), (comment_not_header c Hc), Hc.
  rewrite parse_line_cases.
  destruct (skill_line_plain _ _ Hl) as [-> ->]. rewrite Hl.
  rewrite record_skill_color by done. cbn [last_comment skills section].
  rewrite comment_truthy by done. cbn zeta. by rewrite lookup_insert_eq.
Qed.

(** The colour and the image of a key after a run of lines: the value of
    the last line that wrote it, or what it was before. *)
Lemma last_app_singleton (v : string) w d :
  from_option Some d (last ([v] ++ w)) = from_option Some (Some v) (last w).
Proof.
  destruct w as [|x w]; [done|]. rewrite last_app_cons.
  destruct (last (x :: w)) eqn:E; [done|]. by apply last_None in E.
Qed.

Lemma parse_lines_color st lines k :
  from_option color None (skills (parse_lines st lines) !! k)
  = from_option Some (from_option color None (skills st !! k))
      (last (writes CELL_COLOR k (section st) lines)).
Proof.
  revert st. induction lines as [|line rest IH]; intros st; [done|].
  rewrite parse_lines_cons, IH, parse_line_cases. cbn [writes].
  destruct (is_header line) eqn:Hh; [done|].
  destruct (is_comment line) eqn:Hc.
  { rewrite comment_not_skill by done. by case_decide. }
  destruct (skill_line line) as [[key value]|]; [|by case_decide].
  case_decide as Hsec.
  - rewrite record_skill_color by done. cbn [section skills].
    rewrite lookup_insert. case_decide; subst; [|done].
    by rewrite last_app_singleton.
  - destruct (decide (section st = Some CELL_IMAGE)).
    + rewrite record_skill_image by done. cbn [section skills].
      rewrite lookup_insert. case_decide; subst; [|done].
      by destruct (skills st !! k).
    + rewrite record_skill_other
        by (unfold managed; by rewrite !bool_decide_eq_false_2).
      cbn [section skills]. rewrite lookup_ensure.
      case_decide; subst; [|done]. by destruct (skills st !! k).
Qed.

Lemma parse_lines_image st lines k :
  from_option image None (skills (parse_lines st lines) !! k)
  = from_option Some (from_option image None (skills st !! k))
      (last (writes CELL_IMAGE k (section st) lines)).
Proof.
  revert st. induction lines as [|line rest IH]; intros st; [done|].
  rewrite parse_lines_cons, IH, parse_line_cases. cbn [writes].
  destruct (is_header line) eqn:Hh; [done|].
  destruct (is_comment line) eqn:Hc.
  { rewrite comment_not_skill by done. by case_decide. }
  destruct (skill_line line) as [[key value]|]; [|by case_decide].
  case_decide as Hsec.
  - rewrite record_skill_image by done. cbn [section skills].
    rewrite lookup_insert. case_decide; subst; [|done].
    by rewrite last_app_singleton.
  - destruct (decide (section st = Some CELL_COLOR)).
    + rewrite record_skill_color by done. cbn [section skills].
      rewrite lookup_insert. case_decide; subst; [|done].
      by destruct (skills st !! k).
    + rewrite record_skill_other
        by (unfold managed; by rewrite !bool_decide_eq_false_2).
      cbn [section skills]. rewrite lookup_ensure.
      case_decide; subst; [|done]. by destruct (skills st !! k).
Qed.

End parser.

(** C4 as stated fails: a skill line before any section header creates an
    entry, with every field empty. *)
Lemma skill_line_before_sections_creates_entry :
  (parse_ini "Skill0001 = a.bmp").2 !! "Skill0001" = Some empty_entry
  ∧ (parse_ini "Skill0001 = a.bmp").2 !! "Skill0001" ≠ None.
Proof. split; [by vm_compute|]. by vm_compute. Qed.

(** C4, amended: a skill line outside the two managed sections sets no field
    of any entry; it leaves every other entry and the pending comment as they
    were, and for its own key it keeps the entry that exists or creates one
    with all three fields empty. *)
Theorem skill_line_outside_managed st line key value :
  managed (section st) = false →
  skill_line line = Some (key, value) →
  parse_line st line
  = PState (section st) (last_comment st) (ensure key (skills st))
  ∧ (∀ k, k ≠ key → ensure key (skills st) !! k = skills st !! k)
  ∧ ensure key (skills st) !! key
    = Some (default empty_entry (skills st !! key)).
Proof.
  intros Hsec Hl. rewrite parse_line_cases.
  destruct (skill_line_plain _ _ Hl) as [-> ->]. rewrite Hl.
  rewrite record_skill_other by done. split; [done|]. split.
  - intros k Hk. by rewrite lookup_ensure, decide_False.
  - by rewrite lookup_ensure, decide_True.
Qed.

Lemma skill_line_outside_managed_witness :
  parse_line (PState (Some "Other") (Some "; note") ∅) "Skill0001 = a.bmp"
  = PState (Some "Other") (Some "; note") (ensure "Skill0001" ∅).
Proof.
  exact (proj1 (skill_line_outside_managed
                  (PState (Some "Other") (Some "; note") ∅)
                  "Skill0001 = a.bmp" "Skill0001" "a.bmp" eq_refl eq_refl)).
Defined.

(** C9: the pending comment is dropped by a header, replaced by a newer
    comment line, consumed by a skill line of the colour section, and kept by
    every other line; so in the colour section the comment line [c] reaches
    the next skill line across blank and unrecognised lines, whatever was
    pending before [c]. *)
Theorem pending_comment_attaches st c mid l k v :
  section st = Some CELL_COLOR →
  is_comment c = true →
  Forall (λ x, inert x = true) mid →
  skill_line l = Some (k, v) →
  (∀ st0 line,
     last_comment (parse_line st0 line) =
     if is_header line then None
     else if is_comment line then Some line
     else if bool_decide (section st0 = Some CELL_COLOR)
             && bool_decide (skill_line line ≠ None)
             && truthy (last_comment st0)
          then None
          else last_comment st0)
  ∧ last_comment (parse_lines st (c :: mid)) = Some c
  ∧ comment <$> skills (parse_lines st (c :: mid ++ [l])) !! k = Some (Some c)
  ∧ last_comment (parse_lines st (c :: mid ++ [l])) = None.
Proof.
  intros Hsec Hc Hmid Hl. split; [apply last_comment_step|]. split.
  - rewrite parse_lines_cons, parse_lines_inert by done.
    by rewrite last_comment_step, (comment_not_header c Hc), Hc.
  - destruct (comment_attaches st c mid l k v Hsec Hc Hmid Hl) as [-> ->].
    done.
Qed.

Lemma pending_comment_attaches_witness :
  comment <$>
    skills (parse_lines (PState (Some CELL_COLOR) (Some "; old") ∅)
              ["; #Fireball"; ""; "volume = 3"; "Skill0001=0xFFFF0000"])
    !! "Skill0001"
  = Some (Some "; #Fireball").
Proof.
  refine (proj1 (proj2 (proj2 (pending_comment_attaches
    (PState (Some CELL_COLOR) (Some "; old") ∅) "; #Fireball"
    [""; "volume = 3"] "Skill0001=0xFFFF0000" "Skill0001" "0xFFFF0000"
    eq_refl eq_refl _ eq_refl)))).
  repeat constructor.
Defined.

(** C10: after parsing, the colour (the image) of an identifier is the value
    of the last skill line for it inside a colour (an image) section, in
    document order; the mapping holds one entry per identifier. *)
Theorem duplicate_keys_last_wins text k :
  let m := (parse_ini text).2 in
  from_option color None (m !! k)
  = last (writes CELL_COLOR k None (splitlines text))
  ∧ from_option image None (m !! k)
    = last (writes CELL_IMAGE k None (splitlines text)).
Proof.
  cbn zeta. unfold parse_ini. cbn [snd]. split.
  - rewrite parse_lines_color. cbn [initial skills section].
    rewrite lookup_empty. by destruct (last _).
  - rewrite parse_lines_image. cbn [initial skills section].
    rewrite lookup_empty. by destruct (last _).
Qed.

Example last_value_ex :
  parse_lines initial
    ["[LGP::CELL_COLOR]"; "Skill0001=0x11111111"; "Skill0001=0x22222222";
     "[LGP::CELL_IMAGE]"; "Skill0001 = a.bmp"; "Skill0001 = b.bmp"]
  = PState (Some CELL_IMAGE) None
      {[ "Skill0001" := Entry None (Some "b.bmp") (Some "0x22222222") ]}.
Proof. by vm_compute. Qed.

(** ** The rebuilder *)

Section rebuilder.

Implicit Types (m : gmap string entry) (lines : list string).

Lemma rebuild_lines_cons m line rest :
  rebuild_lines m (line :: rest) =
  line :: block_after m line
    ++ rebuild_lines m
         (if is_header line && managed (Some (header_name line))
          then skip_body rest else rest).
Proof.
  simp rebuild_lines. unfold block_after, managed.
  destruct (is_header line); [|done]. cbn [andb].
  destruct (decide (header_name line = CELL_IMAGE)) as [->|Hi].
  { by rewrite (bool_decide_eq_true_2 (Some CELL_IMAGE = Some CELL_IMAGE)),
      orb_true_r. }
  destruct (decide (header_name line = CELL_COLOR)) as [->|Hc].
  { by rewrite (bool_decide_eq_true_2 (Some CELL_COLOR = Some CELL_COLOR)). }
  rewrite !bool_decide_eq_false_2 by congruence. done.
Qed.

Lemma rebuild_scan_header m sec sec' lines :
  match lines with
  | line :: _ => is_header line = true
  | [] => True
  end →
  rebuild_scan m sec lines = rebuild_scan m sec' lines.
Proof. destruct lines as [|line rest]; [done|]. simpl. by intros ->. Qed.

(** The loop with its inner [while] and the one-pass scan agree. *)
Lemma rebuild_lines_scan_aux m n lines :
  length lines ≤ n →
  (∀ sec, managed sec = false → rebuild_lines m lines = rebuild_scan m sec lines)
  ∧ (∀ sec, managed sec = true →
       rebuild_lines m (skip_body lines) = rebuild_scan m sec lines).
Proof.
  revert lines. induction n as [|n IH]; intros [|line rest] Hlen;
    try (simpl in Hlen; lia); try (split; intros; by simp rebuild_lines).
  assert (length rest ≤ n) as Hrest by (simpl in Hlen; lia).
  destruct (IH rest Hrest) as [IH1 IH2].
  assert (is_header line = true →
          ∀ sec, rebuild_lines m (line :: rest)
                 = rebuild_scan m sec (line :: rest)) as Hhead.
  { intros Hh sec.
    rewrite rebuild_lines_cons. cbn [rebuild_scan]. rewrite Hh. cbn [andb].
    do 2 f_equal. destruct (managed (Some (header_name line))) eqn:Hm; auto. }
  split; intros sec Hsec; destruct (is_header line) eqn:Hh.
  - by apply Hhead.
  - rewrite rebuild_lines_cons. unfold block_after. cbn [rebuild_scan].
    rewrite Hh, Hsec. cbn [andb app]. f_equal. auto.
  - cbn [skip_body]. rewrite Hh. by apply Hhead.
  - cbn [skip_body rebuild_scan]. rewrite Hh, Hsec. auto.
Qed.

Lemma rebuild_lines_scan m lines :
  rebuild_lines m lines = rebuild_scan m None lines.
Proof. by apply (rebuild_lines_scan_aux m (length lines) lines). Qed.

Lemma rebuild_scan_outside m sec lines :
  rebuild_scan m sec lines
  = flat_map (λ l, l :: block_after m l) (outside_from sec lines).
Proof.
  revert sec. induction lines as [|line rest IH]; intros sec; [done|].
  cbn [rebuild_scan outside_from]. destruct (is_header line) eqn:Hh.
  - cbn [flat_map]. by rewrite IH, <-app_comm_cons.
  - destruct (managed sec); [done|]. cbn [flat_map]. rewrite IH.
    unfold block_after at 2. by rewrite Hh.
Qed.

Lemma line_preservation_aux m lines :
  rebuild_lines m lines
  = flat_map (λ l, l :: block_after m l) (outside_lines lines).
Proof. rewrite rebuild_lines_scan. apply rebuild_scan_outside. Qed.

Lemma sublist_flat_map_cons {A} (f : A → list A) (l : list A) :
  l `sublist_of` flat_map (λ x, x :: f x) l.
Proof.
  induction l as [|x l IH]; [done|]. cbn [flat_map].
  rewrite <-app_comm_cons. constructor. by apply sublist_inserts_l.
Qed.

(** Sorted identifiers. *)
Lemma leb_ltb a b : String.leb a b = true → a ≠ b → String.ltb a b = true.
Proof.
  unfold String.leb, String.ltb. intros Hle Hne.
  destruct (String.compare a b) eqn:E; try done.
  by apply String.compare_eq_iff in E.
Qed.

Lemma skill_ids_perm m : skill_ids m ≡ₚ (map_to_list m).*1.
Proof. apply merge_sort_Permutation. Qed.

Lemma skill_ids_NoDup m : NoDup (skill_ids m).
Proof. rewrite skill_ids_perm. apply NoDup_fst_map_to_list. Qed.

Lemma elem_of_skill_ids m k : k ∈ skill_ids m ↔ is_Some (m !! k).
Proof.
  rewrite skill_ids_perm, list_elem_of_fmap. split.
  - intros [[k' e] [-> He%elem_of_map_to_list]]. eauto.
  - intros [e He]. exists (k, e). by rewrite elem_of_map_to_list.
Qed.

Lemma StronglySorted_strict l :
  StronglySorted String.le l → NoDup l →
  StronglySorted (λ a b, String.ltb a b = true) l.
Proof.
  induction 1 as [|x l Hl IH Hx]; intros Hnd; [constructor|].
  apply NoDup_cons in Hnd as [Hx' Hnd]. constructor; [auto|].
  rewrite Forall_forall in Hx. apply Forall_forall. intros y Hy.
  apply leb_ltb; [apply Is_true_true, Hx, Hy|]. by intros ->.
Qed.

Lemma skill_ids_sorted m :
  StronglySorted (λ a b, String.ltb a b = true) (skill_ids m).
Proof.
  apply StronglySorted_strict; [|apply skill_ids_NoDup].
  apply StronglySorted_merge_sort; apply _.
Qed.

Lemma StronglySorted_filter {A} (R : relation A) (P : A → bool) l :
  StronglySorted R l → StronglySorted R (List.filter P l).
Proof.
  induction 1 as [|x l Hl IH Hx]; simpl; [constructor|].
  destruct (P x); [|done]. constructor; [done|].
  rewrite Forall_forall in *. intros y Hy.
  apply list_elem_of_In, filter_In in Hy as [Hy _].
  by apply Hx, list_elem_of_In.
Qed.

Lemma color_block_filter m :
  color_block m
  = flat_map (color_entry m)
      (List.filter (λ k, truthy (m !! k ≫= color)) (skill_ids m)).
Proof.
  unfold color_block. induction (skill_ids m) as [|k l IH]; [done|].
  cbn [flat_map List.filter]. rewrite IH.
  unfold color_entry at 1. destruct (m !! k) as [e|] eqn:E; simpl.
  - destruct (truthy (color e)) eqn:Ht; [|done].
    cbn [flat_map]. unfold color_entry at 2. by rewrite E, Ht.
  - done.
Qed.

(** Trailing newlines. *)
Lemma trailing_newlines_le s : trailing_newlines s ≤ String.length s.
Proof.
  induction s as [|c s IH]; simpl; [lia|].
  destruct (Ascii.eqb c LF && (trailing_newlines s =? String.length s));
    lia.
Qed.

Lemma append_cons c s t : String c s +:+ t = String c (s +:+ t).
Proof. reflexivity. Qed.

Lemma append_nil t : "" +:+ t = t.
Proof. reflexivity. Qed.

Lemma append_assoc s t u : (s +:+ t) +:+ u = s +:+ t +:+ u.
Proof.
  induction s as [|c s IH]; [done|]. by rewrite !append_cons, IH.
Qed.

Lemma length_append s t :
  String.length (s +:+ t) = String.length s + String.length t.
Proof.
  induction s as [|c s IH]; [done|].
  rewrite append_cons. cbn [String.length]. by rewrite IH.
Qed.

Lemma trailing_newlines_snoc s :
  trailing_newlines (s +:+ String LF "") = S (trailing_newlines s).
Proof.
  induction s as [|c s IH]; [done|].
  rewrite append_cons. cbn [trailing_newlines]. rewrite IH, length_append.
  cbn [String.length]. replace (String.length s + 1) with (S (String.length s)) by lia.
  cbn [Nat.eqb]. by destruct (Ascii.eqb c LF && _).
Qed.

Lemma trailing_newlines_app s t :
  trailing_newlines t < String.length t →
  trailing_newlines (s +:+ t) = trailing_newlines t.
Proof.
  intros Ht. induction s as [|c s IH]; [done|].
  rewrite append_cons. cbn [trailing_newlines]. rewrite IH, length_append.
  destruct (Nat.eqb_spec (trailing_newlines t) (String.length s + String.length t));
    [lia|]. by rewrite andb_false_r.
Qed.

Lemma join_lines_snoc lines l :
  ∃ s, join_lines (lines ++ [l]) = s +:+ l.
Proof.
  induction lines as [|x lines [s IH]]; [by exists ""|].
  unfold join_lines in *. cbn [app String.concat].
  destruct (lines ++ [l]) as [|y r] eqn:E; [by destruct lines|].
  rewrite IH. exists (x +:+ String LF "" +:+ s).
  by rewrite !append_assoc.
Qed.

End rebuilder.

(** C2: the rebuilt lines are the raw lines outside the bodies of the two
    managed sections, unchanged and in their order, with the regenerated body
    inserted after each managed header and nothing else added or removed. *)
Theorem line_preservation lines m :
  rebuild_lines m lines
  = flat_map (λ l, l :: block_after m l) (outside_lines lines)
  ∧ outside_lines lines `sublist_of` rebuild_lines m lines
  ∧ rebuild_ini lines m
    = join_lines (flat_map (λ l, l :: block_after m l) (outside_lines lines))
      +:+ String LF "".
Proof.
  pose proof (line_preservation_aux m lines) as H.
  split; [done|]. split.
  - rewrite H. apply sublist_flat_map_cons.
  - unfold rebuild_ini. by rewrite H.
Qed.

Example outside_lines_ex :
  outside_lines
    ["; head"; "[LGP::CELL_COLOR]"; "; #Fireball"; "Skill0002=0xFFFF0000";
     "[Other]"; "volume = 3"; "[LGP::CELL_IMAGE]"; "Skill0002 = f.bmp"; ""]
  = ["; head"; "[LGP::CELL_COLOR]"; "[Other]"; "volume = 3"; "[LGP::CELL_IMAGE]"].
Proof. reflexivity. Qed.

(** C7: the body regenerated after a managed header is the concatenation of
    the entries of the identifiers in strictly ascending order: all
    identifiers of the mapping in an image section, those with a colour in a
    colour section.  The order comes from the mapping alone. *)
Theorem rebuilt_sections_sorted lines m :
  let ids := skill_ids m in
  let colored := List.filter (λ k, truthy (m !! k ≫= color)) ids in
  StronglySorted (λ a b, String.ltb a b = true) ids
  ∧ StronglySorted (λ a b, String.ltb a b = true) colored
  ∧ (∀ k, k ∈ ids ↔ is_Some (m !! k))
  ∧ rebuild_lines m lines
    = flat_map
        (λ l, l :: (if is_header l then
                      if decide (header_name l = CELL_IMAGE)
                      then flat_map (image_entry m) ids
                      else if decide (header_name l = CELL_COLOR)
                           then flat_map (color_entry m) colored
                           else []
                    else []))
        (outside_lines lines).
Proof.
  cbn zeta. split; [apply skill_ids_sorted|].
  split; [apply StronglySorted_filter, skill_ids_sorted|].
  split; [apply elem_of_skill_ids|].
  rewrite <-color_block_filter. apply line_preservation_aux.
Qed.

Example sorted_sections_ex :
  rebuild_lines
    {[ "Skill0002" := Entry (Some "; #Ice") (Some "ice.bmp") (Some "0xFF0000FF");
       "Skill0010" := Entry None (Some "x.bmp") None;
       "Skill0001" := Entry None (Some "fire.bmp") (Some "0xFFFF0000") ]}
    ["[LGP::CELL_COLOR]"; "Skill0002=0xFF0000FF"; "Skill0001=0xFFFF0000";
     "[LGP::CELL_IMAGE]"]
  = ["[LGP::CELL_COLOR]";
     "Skill0001=0xFFFF0000"; "";
     "; #Ice"; "Skill0002=0xFF0000FF"; "";
     "[LGP::CELL_IMAGE]";
     "Skill0001 = fire.bmp"; "";
     "; #Ice"; "Skill0002 = ice.bmp"; "";
     "Skill0010 = x.bmp"; ""].
Proof. by vm_compute. Qed.

(** C8 as stated fails: when the file ends with a managed section that has an
    entry, the blank separator of the last entry and the final newline give
    two trailing newlines. *)
Lemma rebuild_ini_two_trailing_newlines :
  trailing_newlines
    (rebuild_ini ["[LGP::CELL_IMAGE]"]
       {[ "Skill0001" := Entry None (Some "a.bmp") None ]}) = 2
  ∧ trailing_newlines
      (rebuild_ini ["[LGP::CELL_IMAGE]"]
         {[ "Skill0001" := Entry None (Some "a.bmp") None ]}) ≠ 1.
Proof. split; [by vm_compute|]. by vm_compute. Qed.

(** C8, amended: the output is the emitted lines joined by newlines with one
    newline appended, so it always ends with a newline; it ends with exactly
    one when the last emitted line is not empty and does not itself end with a
    newline. *)
Theorem rebuild_ini_trailing_newline lines m :
  trailing_newlines (rebuild_ini lines m)
  = S (trailing_newlines (join_lines (rebuild_lines m lines)))
  ∧ (∀ l, last (rebuild_lines m lines) = Some l →
          l ≠ "" → trailing_newlines l = 0 →
          trailing_newlines (rebuild_ini lines m) = 1).
Proof.
  unfold rebuild_ini. split; [apply trailing_newlines_snoc|].
  intros l [pre Hl]%last_Some Hne Hl0. rewrite trailing_newlines_snoc, Hl.
  destruct (join_lines_snoc pre l) as [s ->].
  rewrite trailing_newlines_app, Hl0; [done|].
  rewrite Hl0. destruct l; [done|]. simpl. lia.
Qed.

Lemma rebuild_ini_trailing_newline_witness :
  trailing_newlines (rebuild_ini ["[General]"; "volume = 3"] ∅) = 1.
Proof.
  refine (proj2 (rebuild_ini_trailing_newline ["[General]"; "volume = 3"] ∅)
            "volume = 3" _ _ _).
  - by vm_compute.
  - discriminate.
  - reflexivity.
Defined.

(** ** Facts about the string primitives *)

Section string_facts.

Implicit Types (s t : string) (c : ascii).

Lemma lstrip_idemp s : lstrip (lstrip s) = lstrip s.
Proof.
  induction s as [|c s IH]; [done|]. simpl.
  destruct (is_space c) eqn:E; [done|]. simpl. by rewrite E.
Qed.

Lemma rstrip_cons_fixed c s : rstrip (String c s) = String c s → rstrip s = s.
Proof.
  simpl. destruct (rstrip s) as [|c' r] eqn:E.
  - destruct (is_space c); [done|]. by intros [= <-].
  - by intros [= <-].
Qed.

Lemma rstrip_idemp s : rstrip (rstrip s) = rstrip s.
Proof.
  induction s as [|c s IH]; [done|]. simpl.
  destruct (rstrip s) as [|c' r] eqn:E.
  - destruct (is_space c) eqn:Hc; [done|]. simpl. by rewrite Hc.
  - simpl in *. by rewrite IH.
Qed.

Lemma rstrip_lstrip_fixed s : rstrip s = s → rstrip (lstrip s) = lstrip s.
Proof.
  induction s as [|c s IH]; [done|]. intros Hs. simpl.
  destruct (is_space c); [|done]. by apply IH, (rstrip_cons_fixed c).
Qed.

Lemma strip_trimmed s : trimmed (strip s).
Proof.
  split; [apply lstrip_idemp|]. apply rstrip_lstrip_fixed, rstrip_idemp.
Qed.

Lemma trimmed_strip s : trimmed s → strip s = s.
Proof. intros [Hl Hr]. unfold strip. by rewrite Hr. Qed.

Lemma rstrip_app_r s t : rstrip t ≠ "" → rstrip (s +:+ t) = s +:+ rstrip t.
Proof.
  intros Ht. induction s as [|c s IH]; [done|].
  rewrite !append_cons. cbn [rstrip]. rewrite IH.
  destruct (s +:+ rstrip t) eqn:E; [|done].
  destruct s; [|done]. by rewrite append_nil in E.
Qed.

Lemma rstrip_app_spaces s t : rstrip t = "" → rstrip (s +:+ t) = rstrip s.
Proof.
  intros Ht. induction s as [|c s IH]; [done|].
  rewrite append_cons. cbn [rstrip]. by rewrite IH.
Qed.

Lemma lstrip_head c s : is_space c = false → lstrip (String c s) = String c s.
Proof. simpl. by intros ->. Qed.

Lemma trimmed_head c s : trimmed (String c s) → is_space c = false.
Proof.
  intros [Hl _]. simpl in Hl. destruct (is_space c) eqn:E; [|done].
  exfalso. assert (String.length (lstrip s) ≤ String.length s) as Hlen.
  { clear. induction s as [|c s IH]; simpl; [lia|].
    destruct (is_space c); simpl; lia. }
  rewrite Hl in Hlen. simpl in Hlen. lia.
Qed.

Lemma split_once_app d s t :
  lacks d s → split_once d (s +:+ String d t) = Some (s, t).
Proof.
  unfold lacks. induction s as [|c s IH]; intros Hs.
  - rewrite append_nil. simpl. by rewrite Ascii.eqb_refl.
  - rewrite append_cons. simpl in *. destruct (Ascii.eqb c d); [done|].
    destruct (split_once d s) as [[a b]|]; [done|]. by rewrite IH.
Qed.

Lemma lacks_app d s t : lacks d s → lacks d t → lacks d (s +:+ t).
Proof.
  unfold lacks. intros Hs Ht. induction s as [|c s IH]; [done|].
  rewrite append_cons. simpl in *. destruct (Ascii.eqb c d); [done|].
  destruct (split_once d s) as [[a b]|]; [done|]. by rewrite IH.
Qed.

Lemma split_once_lacks d s a b : split_once d s = Some (a, b) → lacks d a.
Proof.
  unfold lacks. revert a. induction s as [|c s IH]; intros a; [done|]. simpl.
  destruct (Ascii.eqb c d) eqn:E; [by intros [= <- <-]|].
  destruct (split_once d s) as [[a' b']|]; [|done].
  intros [= <- <-]. simpl. rewrite E. by rewrite (IH a').
Qed.

Lemma lacks_cons d c s : lacks d (String c s) → lacks d s.
Proof.
  unfold lacks. simpl. destruct (Ascii.eqb c d); [done|].
  by destruct (split_once d s) as [[a b]|].
Qed.

Lemma lacks_lstrip d s : lacks d s → lacks d (lstrip s).
Proof.
  induction s as [|c s IH]; [done|]. intros Hs. simpl.
  destruct (is_space c); [|done]. by apply IH, (lacks_cons d c).
Qed.

Lemma lacks_rstrip d s : lacks d s → lacks d (rstrip s).
Proof.
  unfold lacks. induction s as [|c s IH]; [done|]. simpl.
  destruct (Ascii.eqb c d) eqn:E; [done|].
  destruct (split_once d s) as [[a b]|]; [done|]. intros _.
  destruct (rstrip s) as [|c' r] eqn:Hr.
  - destruct (is_space c); [done|]. simpl. by rewrite E.
  - simpl in *. rewrite E. by rewrite IH.
Qed.

Lemma lacks_strip d s : lacks d s → lacks d (strip s).
Proof. intros. by apply lacks_lstrip, lacks_rstrip. Qed.

(** Line boundaries *)
Lemma nobreak_cons c s :
  nobreak (String c s) ↔ is_linebreak c = false ∧ nobreak s.
Proof.
  unfold nobreak. simpl. rewrite andb_true_iff, negb_true_iff. done.
Qed.

Lemma nobreak_app s t : nobreak (s +:+ t) ↔ nobreak s ∧ nobreak t.
Proof.
  induction s as [|c s IH].
  - rewrite append_nil. unfold nobreak at 2. simpl. tauto.
  - rewrite append_cons, !nobreak_cons, IH. tauto.
Qed.

Lemma nobreak_lstrip s : nobreak s → nobreak (lstrip s).
Proof.
  induction s as [|c s IH]; [done|]. intros Hs. simpl.
  destruct (is_space c); [|done]. apply IH. by apply nobreak_cons in Hs as [_ ?].
Qed.

Lemma nobreak_rstrip s : nobreak s → nobreak (rstrip s).
Proof.
  induction s as [|c s IH]; [done|]. intros [Hc Hs]%nobreak_cons. simpl.
  destruct (rstrip s) as [|c' r] eqn:Hr.
  - destruct (is_space c); [done|]. by apply nobreak_cons.
  - apply nobreak_cons. auto.
Qed.

Lemma nobreak_strip s : nobreak s → nobreak (strip s).
Proof. intros. by apply nobreak_lstrip, nobreak_rstrip. Qed.

Lemma nobreak_split_once d s a b :
  split_once d s = Some (a, b) → nobreak s → nobreak a ∧ nobreak b.
Proof.
  revert a. induction s as [|c s IH]; intros a; [done|]. simpl.
  intros H [Hc Hs]%nobreak_cons.
  destruct (Ascii.eqb c d); [by injection H as <- <-|].
  destruct (split_once d s) as [[a' b']|]; [|done]. injection H as <- <-.
  destruct (IH a' eq_refl Hs). by rewrite nobreak_cons.
Qed.

Lemma lower_char_keeps c :
  is_space (lower_char c) = is_space c
  ∧ is_linebreak (lower_char c) = is_linebreak c.
Proof. by destruct c as [[] [] [] [] [] [] [] []]. Qed.

Lemma nobreak_lower s : nobreak s → nobreak (lower s).
Proof.
  induction s as [|c s IH]; [done|]. intros [Hc Hs]%nobreak_cons.
  unfold lower. cbn [PyStr.map]. apply nobreak_cons.
  split; [|by apply IH]. by rewrite (proj2 (lower_char_keeps c)).
Qed.

(** [splitlines] after ["\n".join(lines) + "\n"] *)
Lemma splitlines_line s rest :
  nobreak s →
  splitlines (s +:+ String LF rest) = s :: splitlines rest.
Proof.
  induction s as [|c s IH]; intros Hs.
  - rewrite append_nil. by destruct rest.
  - apply nobreak_cons in Hs as [Hc Hs]. rewrite append_cons.
    cbn [splitlines]. by rewrite Hc, IH.
Qed.

Lemma splitlines_join lines :
  lines ≠ [] → Forall nobreak lines →
  splitlines (join_lines lines +:+ String LF "") = lines.
Proof.
  intros Hne Hall. induction Hall as [|x l Hx Hl IH]; [done|].
  unfold join_lines in *. cbn [String.concat]. destruct l as [|y r].
  - by rewrite splitlines_line.
  - rewrite !append_assoc, append_cons, append_nil, splitlines_line by done.
    by rewrite IH.
Qed.

Lemma splitlines_nobreak_aux n s :
  String.length s ≤ n → Forall nobreak (splitlines s).
Proof.
  revert s. induction n as [|n IH]; intros [|c s] Hn;
    try (simpl in Hn; lia); try constructor.
  cbn [splitlines]. cbn [String.length] in Hn.
  destruct (is_linebreak c) eqn:Hc.
  - constructor; [done|]. destruct s as [|c' s']; [constructor|].
    cbn [String.length] in Hn.
    destruct (Ascii.eqb c CR && Ascii.eqb c' LF); apply IH; simpl; lia.
  - assert (Forall nobreak (splitlines s)) as Hs by (apply IH; lia).
    destruct (splitlines s) as [|l ls]; constructor.
    + by apply nobreak_cons.
    + constructor.
    + apply Forall_cons in Hs as [Hl _]. by apply nobreak_cons.
    + by apply Forall_cons in Hs as [_ ?].
Qed.

Lemma splitlines_nobreak s : Forall nobreak (splitlines s).
Proof. by apply (splitlines_nobreak_aux (String.length s)). Qed.

End string_facts.

(** ** Lines written by the rebuilder, read back by the parser *)

Section written_lines.

Implicit Types (k v i c line : string).

Lemma skill_key_head k : is_skill_key k = true → ∃ t, k = String "S" t.
Proof.
  unfold is_skill_key. intros [H _]%andb_true_iff.
  destruct k as [|a t]; [done|]. simpl in H.
  apply andb_true_iff in H as [->%Ascii.eqb_eq _]. eauto.
Qed.

Lemma skill_line_parts line k v :
  skill_line line = Some (k, v) →
  is_skill_key k = true ∧ trimmed k ∧ lacks "=" k ∧ trimmed v
  ∧ (nobreak line → nobreak k ∧ nobreak v).
Proof.
  unfold skill_line.
  destruct (split_once "=" (strip line)) as [[key value]|] eqn:E; [|done].
  destruct (is_skill_key (strip key)) eqn:Hk; [|done]. intros [= <- <-].
  split; [done|]. split; [apply strip_trimmed|].
  split; [by eapply lacks_strip, split_once_lacks|].
  split; [apply strip_trimmed|]. intros Hl%nobreak_strip.
  destruct (nobreak_split_once _ _ _ _ E Hl). auto using nobreak_strip.
Qed.

Lemma rstrip_value v : v ≠ "" → rstrip v = v → ∀ s, rstrip (s +:+ v) = s +:+ v.
Proof. intros Hne Hv s. rewrite rstrip_app_r; by rewrite Hv. Qed.

Lemma strip_space_value v :
  v ≠ "" → trimmed v → strip (String " " v) = v.
Proof.
  intros Hne [Hl Hr]. unfold strip.
  change (String " " v) with (" " +:+ v). rewrite rstrip_value by done.
  done.
Qed.

Lemma strip_key_space k : key_ok k → strip (k +:+ " ") = k.
Proof.
  intros (_ & [Hl Hr] & _). unfold strip.
  rewrite rstrip_app_spaces by done. by rewrite Hr.
Qed.

Lemma skill_line_image k i :
  key_ok k → value_ok i → skill_line (k +:+ " = " +:+ i) = Some (k, i).
Proof.
  intros Hk (Hne & Hi & _). pose proof Hk as (Hkey & [Hkl Hkr] & Heq & _).
  destruct (skill_key_head k Hkey) as [t ->].
  unfold skill_line.
  assert (strip (String "S" t +:+ " = " +:+ i) = String "S" t +:+ " = " +:+ i)
    as ->.
  { unfold strip. rewrite <-append_assoc, rstrip_value by (done || apply Hi).
    by rewrite append_assoc. }
  change (" = " +:+ i) with (" " +:+ String "=" (String " " i)).
  rewrite <-append_assoc, split_once_app by (by apply lacks_app).
  rewrite strip_key_space, Hkey, strip_space_value by done. done.
Qed.

Lemma skill_line_color k v :
  key_ok k → value_ok v → skill_line (k +:+ "=" +:+ v) = Some (k, v).
Proof.
  intros Hk (Hne & Hv & _). pose proof Hk as (Hkey & Hkt & Heq & _).
  destruct (skill_key_head k Hkey) as [t ->].
  unfold skill_line.
  assert (strip (String "S" t +:+ "=" +:+ v) = String "S" t +:+ "=" +:+ v)
    as ->.
  { unfold strip. rewrite <-append_assoc, rstrip_value by (done || apply Hv).
    by rewrite append_assoc. }
  change ("=" +:+ v) with (String "=" v).
  rewrite split_once_app by done.
  by rewrite !trimmed_strip, Hkey.
Qed.

(** The inferred image name is a value the parser would store. *)
Lemma bmp_value_ok s :
  lstrip s = s → nobreak s → value_ok (lower s +:+ ".bmp").
Proof.
  intros Hs Hn. split; [by destruct s|]. split; [split|].
  - destruct s as [|c s]; [done|]. unfold lower. cbn [PyStr.map].
    rewrite append_cons. apply lstrip_head.
    rewrite (proj1 (lower_char_keeps c)).
    simpl in Hs. destruct (is_space c) eqn:E; [|done]. exfalso.
    assert (String.length (lstrip s) ≤ String.length s) as Hlen.
    { clear. induction s as [|c s IH]; simpl; [lia|].
      destruct (is_space c); simpl; lia. }
    rewrite Hs in Hlen. simpl in Hlen. lia.
  - by apply rstrip_value.
  - apply nobreak_app. split; [by apply nobreak_lower|done].
Qed.

Lemma blank_inert : inert "" = true.
Proof. reflexivity. Qed.

End written_lines.

(** ** What the first parse guarantees *)

Section first_parse.

Implicit Types (m : gmap string entry) (st : pstate) (e : entry).

Lemma empty_entry_ok : entry_ok empty_entry.
Proof. by repeat split. Qed.

Lemma default_entry_ok m k : map_ok m → entry_ok (default empty_entry (m !! k)).
Proof.
  intros Hm. destruct (m !! k) as [e|] eqn:E; [by apply (Hm k)|].
  apply empty_entry_ok.
Qed.

Lemma map_ok_insert m k e :
  map_ok m → key_ok k → entry_ok e → map_ok (<[k := e]> m).
Proof.
  intros Hm Hk He k' e'. rewrite lookup_insert. case_decide; subst.
  - by intros [= <-].
  - apply Hm.
Qed.

Lemma section_step st line :
  section (parse_line st line)
  = if is_header line then Some (header_name line) else section st.
Proof.
  rewrite parse_line_cases. destruct (is_header line); [done|].
  destruct (is_comment line); [done|].
  destruct (skill_line line) as [[k v]|]; [|done].
  destruct (decide (section st = Some CELL_COLOR)).
  { by rewrite record_skill_color. }
  destruct (decide (section st = Some CELL_IMAGE)).
  { by rewrite record_skill_image. }
  rewrite record_skill_other; [done|].
  unfold managed. by rewrite !bool_decide_eq_false_2.
Qed.

Lemma parse_line_ok st line :
  state_ok st → nobreak line → color_present (section st) line →
  state_ok (parse_line st line).
Proof.
  intros [Hm Hc] Hline Hcol. rewrite parse_line_cases.
  destruct (is_header line) eqn:Hh; [by split|].
  destruct (is_comment line) eqn:Hcm.
  { split; [done|]. by intros c [= <-]. }
  destruct (skill_line line) as [[k v]|] eqn:Hl; [|by split].
  destruct (skill_line_parts _ _ _ Hl) as (Hk1 & Hk2 & Hk3 & Hv & Hnb).
  destruct (Hnb Hline) as [Hkn Hvn].
  assert (key_ok k) as Hk by done.
  pose proof (default_entry_ok (skills st) k Hm) as (He1 & He2 & He3).
  destruct (decide (section st = Some CELL_COLOR)) as [Hs|Hs].
  { rewrite record_skill_color by done. cbn zeta. split.
    - cbn [skills]. apply map_ok_insert; [done..|].
      assert (value_ok v) by (split; [by eapply Hcol|done]).
      split; [by intros ? [= <-]|]. split; [done|]. cbn [comment color].
      intros c Hcc. destruct (truthy (last_comment st)).
      + destruct (Hc c Hcc) as [? ?]. done.
      + destruct (He3 c Hcc) as (? & ? & _). done.
    - cbn [last_comment]. destruct (truthy (last_comment st)); [done|].
      apply Hc. }
  destruct (decide (section st = Some CELL_IMAGE)) as [Hi|Hi].
  { rewrite record_skill_image by done. split; [|done].
    cbn [skills]. apply map_ok_insert; [done..|].
    split; [done|]. split; [by intros ? [= <-]|done]. }
  rewrite record_skill_other
    by (unfold managed; by rewrite !bool_decide_eq_false_2).
  split; [|done]. cbn [skills]. rewrite ensure_insert.
  apply map_ok_insert; [done..|]. by apply default_entry_ok.
Qed.

Lemma colors_present_cons sec line rest :
  colors_present sec (line :: rest) = true →
  color_present sec line
  ∧ colors_present (section (parse_line (PState sec None ∅) line)) rest = true.
Proof.
  rewrite section_step. cbn [colors_present section].
  destruct (is_header line) eqn:Hh.
  - intros H. split; [|done]. intros _ k v Hl.
    by rewrite header_not_skill in Hl.
  - intros [H1 H2]%andb_true_iff. split; [|done]. intros -> k v Hl.
    rewrite decide_True, Hl in H1 by done.
    apply negb_true_iff in H1. by intros ->.
Qed.

Lemma parse_lines_ok st lines :
  state_ok st → Forall nobreak lines →
  colors_present (section st) lines = true →
  state_ok (parse_lines st lines).
Proof.
  intros Hst Hnb. revert st Hst.
  induction Hnb as [|line rest Hline _ IH]; intros st Hst Hcol; [done|].
  apply colors_present_cons in Hcol as [Hc Hrest].
  rewrite parse_lines_cons. apply IH; [by apply parse_line_ok|].
  by rewrite section_step in *.
Qed.

(** The filename rule keeps colour and comment and leaves a stored image. *)
Lemma infer_image_fields k e :
  comment (infer_image k e) = comment e ∧ color (infer_image k e) = color e.
Proof.
  unfold infer_image. destruct (negb (truthy (image e))); [|done].
  by destruct (if truthy (comment e) then _ else _) as [[? ?]|].
Qed.

Lemma set_image_ok e i :
  entry_ok e → value_ok i →
  entry_ok (set_image (Some i) e)
  ∧ ∃ i', image (set_image (Some i) e) = Some i' ∧ value_ok i'.
Proof.
  intros (He1 & He2 & He3) Hi. split; [|by exists i].
  split; [done|]. split; [|done]. intros ? [= <-]. by destruct Hi as (_ & ? & ?).
Qed.

Lemma infer_image_ok k e :
  key_ok k → entry_ok e →
  entry_ok (infer_image k e)
  ∧ ∃ i, image (infer_image k e) = Some i ∧ value_ok i.
Proof.
  intros (Hk & [Hkl _] & _ & Hkn) He. unfold infer_image.
  destruct (truthy (image e)) eqn:Ht; cbn [negb].
  { split; [done|]. destruct (image e) as [i|] eqn:Hi; [|done].
    exists i. split; [done|]. destruct He as (_ & He2 & _).
    destruct (He2 i Hi). split; [|done]. intros ->. done. }
  destruct (if truthy (comment e) then _ else _) as [[before after]|] eqn:Hc.
  - apply set_image_ok; [done|].
    apply bmp_value_ok; [apply strip_trimmed|].
    destruct (truthy (comment e)); [|done].
    destruct (comment e) as [c|] eqn:Hcm; [|done]. cbn in Hc.
    destruct He as (_ & _ & He3). destruct (He3 c Hcm) as (_ & Hcn & _).
    destruct (nobreak_split_once _ _ _ _ Hc Hcn). by apply nobreak_strip.
  - apply set_image_ok; [done|]. by apply bmp_value_ok.
Qed.

(** Keys never leave the dictionary, and each skill line adds its key. *)
Lemma parse_line_dom st line k :
  is_Some (skills (parse_line st line) !! k)
  ↔ is_Some (skills st !! k) ∨ ∃ v, skill_line line = Some (k, v).
Proof.
  rewrite parse_line_cases.
  destruct (is_header line) eqn:Hh.
  { rewrite header_not_skill by done. split; [by left|]. by intros [?|[? ?]]. }
  destruct (is_comment line) eqn:Hc.
  { rewrite comment_not_skill by done. split; [by left|]. by intros [?|[? ?]]. }
  destruct (skill_line line) as [[key v]|];
    [|split; [by left|]; by intros [?|[? ?]]].
  assert (∀ e, is_Some (<[key := e]> (skills st) !! k)
               ↔ is_Some (skills st !! k) ∨ ∃ v0, Some (key, v) = Some (k, v0))
    as Hins.
  { intros e. rewrite lookup_insert. case_decide; subst.
    - split; [eauto|]. intros _. by eexists.
    - split; [eauto|]. intros [?|[? ?]]; [done|congruence]. }
  destruct (decide (section st = Some CELL_COLOR)).
  { rewrite record_skill_color by done. apply Hins. }
  destruct (decide (section st = Some CELL_IMAGE)).
  { rewrite record_skill_image by done. apply Hins. }
  rewrite record_skill_other
    by (unfold managed; by rewrite !bool_decide_eq_false_2).
  cbn [skills]. rewrite ensure_insert. apply Hins.
Qed.

Lemma parse_lines_dom_mono st lines k :
  is_Some (skills st !! k) → is_Some (skills (parse_lines st lines) !! k).
Proof.
  revert st. induction lines as [|line rest IH]; intros st Hk; [done|].
  rewrite parse_lines_cons. apply IH, parse_line_dom. by left.
Qed.

Lemma parse_lines_keys st lines line k v :
  line ∈ lines → skill_line line = Some (k, v) →
  is_Some (skills (parse_lines st lines) !! k).
Proof.
  intros Hin Hl. revert st.
  induction lines as [|x rest IH]; intros st; [by apply elem_of_nil in Hin|].
  rewrite parse_lines_cons. apply elem_of_cons in Hin as [<-|Hin].
  - apply parse_lines_dom_mono, parse_line_dom. eauto.
  - by apply IH.
Qed.

Lemma opens_cons target sec line rest :
  opens target (if is_header line then Some (header_name line) else sec) rest →
  opens target sec (line :: rest).
Proof.
  intros [H|(h & Hin & Hh & Hn)].
  - destruct (is_header line) eqn:E; [|by left].
    right. exists line. split; [left|]. split; congruence.
  - right. exists h. split; [by right|done].
Qed.

Lemma writes_opens target k sec lines :
  writes target k sec lines ≠ [] → opens target sec lines.
Proof.
  revert sec. induction lines as [|line rest IH]; intros sec; [done|].
  cbn [writes]. intros H. apply opens_cons.
  destruct (is_header line); [by apply IH|].
  destruct (decide (sec = Some target)); [by left|].
  by apply IH.
Qed.

Lemma key_origin st lines k :
  is_Some (skills (parse_lines st lines) !! k) →
  is_Some (skills st !! k)
  ∨ (∃ line v, line ∈ outside_from (section st) lines
               ∧ skill_line line = Some (k, v))
  ∨ opens CELL_IMAGE (section st) lines
  ∨ writes CELL_COLOR k (section st) lines ≠ [].
Proof.
  revert st. induction lines as [|line rest IH]; intros st; [by left|].
  rewrite parse_lines_cons. intros Hk.
  destruct (IH _ Hk) as [H|[H|[H|H]]]; try rewrite section_step in H.
  - apply parse_line_dom in H as [H|[v Hv]]; [by left|].
    destruct (skill_line_plain _ _ Hv) as [Hh _].
    destruct (decide (section st = Some CELL_COLOR)) as [Hc|Hc].
    { do 3 right. cbn [writes]. by rewrite Hh, Hv, !decide_True. }
    destruct (decide (section st = Some CELL_IMAGE)) as [Hi|Hi].
    { right; right; left. by left. }
    right; left. exists line, v. split; [|done]. cbn [outside_from].
    rewrite Hh. unfold managed. rewrite !bool_decide_eq_false_2 by done.
    left.
  - right; left. destruct H as (l & v & Hin & Hl). exists l, v.
    split; [|done]. cbn [outside_from].
    destruct (is_header line); [by right|].
    destruct (managed (section st)); [done|by right].
  - right; right; left. by apply opens_cons.
  - do 3 right. cbn [writes]. destruct (is_header line); [done|].
    intros [_ ?]%app_eq_nil. done.
Qed.

End first_parse.

(** ** The second parse, against the saved dictionary *)

Section second_parse.

Context (M : gmap string entry) (HM : saved_ok M).
Implicit Types (T : gmap string entry) (st : pstate).

Lemma grows_refl T : grows M T T.
Proof. by repeat split. Qed.

Lemma grows_trans T1 T2 T3 : grows M T1 T2 → grows M T2 T3 → grows M T1 T3.
Proof. intros (?&?&?) (?&?&?). repeat split; auto. Qed.

(** Replacing the entry of [k] by [e'], when [e'] is at least as settled
    as what was there. *)
Lemma insert_step T k e' e0 :
  M !! k = Some e0 →
  below M T →
  let e := default empty_entry (T !! k) in
  (image e' = image e ∨ image e' = image e0) →
  ((color e' = color e ∧ comment e' = comment e)
   ∨ (color e' = color e0 ∧ comment e' = comment e0
      ∧ truthy (color e0) = true)) →
  below M (<[k := e']> T) ∧ grows M T (<[k := e']> T).
Proof.
  intros Hk Hb e Hi Hc.
  assert ((image e = None ∨ image e = image e0)
          ∧ ((color e = None ∧ comment e = None)
             ∨ (color e = color e0 ∧ comment e = comment e0
                ∧ truthy (color e0) = true))) as [Hei Hec].
  { subst e. destruct (T !! k) as [e1|] eqn:E; [|by split; left].
    destruct (Hb k e1 E) as (e0' & ? & ? & ?). by same_lookup. }
  split; [|repeat split].
  - intros k' e1. rewrite lookup_insert. case_decide; [|apply Hb].
    subst k'. intros [= <-]. exists e0. split; [done|]. split.
    + destruct Hi as [->| ->]; auto.
    + destruct Hc as [[-> ->]|?]; auto.
  - intros k'. rewrite lookup_insert. case_decide; eauto.
  - intros k' (e1 & e0' & H1 & H2 & H3). unfold image_set.
    rewrite lookup_insert. case_decide; [|eauto 6]. subst k'.
    same_lookup. eexists e', _. split; [done|]. split; [done|].
    destruct Hi as [->| ->]; [|done]. subst e. by rewrite H1.
  - intros k' (e1 & e0' & H1 & H2 & H3 & H4). unfold color_set.
    rewrite lookup_insert. case_decide; [|eauto 8]. subst k'.
    same_lookup. eexists e', _. split; [done|]. split; [done|].
    destruct Hc as [[-> ->]|(-> & -> & _)]; [|done]. subst e.
    by rewrite H1.
Qed.

Lemma comment_line_step st c :
  is_comment c = true →
  parse_line st c = PState (section st) (Some c) (skills st).
Proof.
  intros Hc. by rewrite parse_line_cases, (comment_not_header c Hc), Hc.
Qed.

Lemma skill_line_step st line k v :
  skill_line line = Some (k, v) → parse_line st line = record_skill st k v.
Proof.
  intros Hl. rewrite parse_line_cases.
  destruct (skill_line_plain _ _ Hl) as [-> ->]. by rewrite Hl.
Qed.

(** One entry of an image section, read back. *)
Lemma image_entry_step st k e0 :
  M !! k = Some e0 → section st = Some CELL_IMAGE → below M (skills st) →
  let st' := parse_lines st (image_entry M k) in
  section st' = Some CELL_IMAGE
  ∧ below M (skills st') ∧ grows M (skills st) (skills st')
  ∧ image_set M (skills st') k.
Proof.
  intros Hk Hsec Hb. cbn zeta. unfold image_entry. rewrite Hk.
  destruct (HM k e0 Hk) as (Hkey & (_ & _ & Hcm) & i & Hi & Hiv).
  set (st1 := parse_lines st
                (if truthy (comment e0) then [default "" (comment e0)] else [])).
  assert (section st1 = Some CELL_IMAGE ∧ skills st1 = skills st) as [Hs1 Hm1].
  { subst st1. destruct (comment e0) as [c|]; [|done].
    destruct (truthy (Some c)); [|done].
    destruct (Hcm c eq_refl) as [Hc _]. cbn [default parse_lines fold_left].
    by rewrite comment_line_step. }
  rewrite parse_lines_app. fold st1. cbn [parse_lines fold_left].
  rewrite Hi. cbn [format default].
  rewrite (parse_line_inert _ "") by apply blank_inert.
  rewrite (skill_line_step _ _ k i) by by apply skill_line_image.
  rewrite record_skill_image by done.
  cbn [section skills]. rewrite Hs1, Hm1. split; [done|].
  destruct (insert_step (skills st) k
              (set_image (Some i) (default empty_entry (skills st !! k))) e0)
    as [Hb' Hg]; [done|done|by right; rewrite Hi|by left|].
  split; [done|]. split; [done|].
  exists (set_image (Some i) (default empty_entry (skills st !! k))), e0.
  by rewrite lookup_insert_eq, Hi.
Qed.

(** One entry of a colour section, read back. *)
Lemma color_entry_step st k e0 :
  M !! k = Some e0 → section st = Some CELL_COLOR →
  last_comment st = None → below M (skills st) →
  let st' := parse_lines st (color_entry M k) in
  section st' = Some CELL_COLOR ∧ last_comment st' = None
  ∧ below M (skills st') ∧ grows M (skills st) (skills st')
  ∧ (truthy (color e0) = true → color_set M (skills st') k).
Proof.
  intros Hk Hsec Hlc Hb. cbn zeta. unfold color_entry. rewrite Hk.
  destruct (truthy (color e0)) eqn:Ht;
    [|by repeat split; auto using grows_refl].
  destruct (HM k e0 Hk) as (Hkey & (Hcol & _ & Hcm) & _).
  destruct (color e0) as [v|] eqn:Hv; [|done].
  set (st1 := parse_lines st
                (if truthy (comment e0) then [default "" (comment e0)] else [])).
  assert (section st1 = Some CELL_COLOR ∧ skills st1 = skills st
          ∧ last_comment st1 = (if truthy (comment e0) then comment e0 else None)
          ∧ (truthy (comment e0) = false → comment e0 = None))
    as (Hs1 & Hm1 & Hl1 & Hnone).
  { subst st1. destruct (comment e0) as [c|]; [|done].
    destruct (Hcm c eq_refl) as [Hc _].
    rewrite (comment_truthy c Hc). cbn [default parse_lines fold_left].
    by rewrite comment_line_step. }
  rewrite parse_lines_app. fold st1. cbn [parse_lines fold_left].
  cbn [format default].
  rewrite (parse_line_inert _ "") by apply blank_inert.
  rewrite (skill_line_step _ _ k v) by (apply skill_line_color; auto).
  rewrite record_skill_color by done.
  cbn [section skills last_comment]. rewrite Hs1, Hm1, Hl1.
  split; [done|]. split.
  { destruct (truthy (comment e0)) eqn:Htc; [by rewrite Htc|done]. }
  set (e := default empty_entry (skills st !! k)).
  set (e' := Entry _ _ _).
  assert (comment e' = comment e0
          ∨ (truthy (comment e0) = false ∧ comment e' = comment e)) as Hce.
  { subst e'. cbn [comment]. destruct (truthy (comment e0)) eqn:Htc.
    - left. by rewrite Htc.
    - right. by split. }
  assert (comment e' = comment e0) as Hce'.
  { destruct Hce as [?|[Htc Hce]]; [done|]. rewrite Hce, (Hnone Htc).
    subst e. destruct (skills st !! k) as [e1|] eqn:E; [|done].
    destruct (Hb k e1 E) as (e0' & ? & _ & [[_ ?]|(_ & ? & _)]);
      same_lookup; cbn [default]; [done|]. by rewrite <-(Hnone Htc). }
  destruct (insert_step (skills st) k e' e0) as [Hb' Hg];
    [done|done|by left|right; by rewrite Hv|].
  split; [done|]. split; [done|]. intros _.
  exists e', e0. by rewrite lookup_insert_eq.
Qed.

End second_parse.

Section read_back.

Context (M : gmap string entry) (HM : saved_ok M).
Implicit Types (T : gmap string entry) (st : pstate).

Lemma image_block_step ids st :
  section st = Some CELL_IMAGE → below M (skills st) →
  let st' := parse_lines st (flat_map (image_entry M) ids) in
  section st' = Some CELL_IMAGE
  ∧ below M (skills st') ∧ grows M (skills st) (skills st')
  ∧ (∀ k, k ∈ ids → is_Some (M !! k) → image_set M (skills st') k).
Proof.
  cbn zeta. revert st. induction ids as [|k ids IH]; intros st Hsec Hb.
  { repeat split; auto using grows_refl. by intros k ?%elem_of_nil. }
  cbn [flat_map]. rewrite parse_lines_app.
  set (st1 := parse_lines st (image_entry M k)).
  assert (section st1 = Some CELL_IMAGE ∧ below M (skills st1)
          ∧ grows M (skills st) (skills st1)
          ∧ (is_Some (M !! k) → image_set M (skills st1) k))
    as (Hs1 & Hb1 & Hg1 & Hk1).
  { subst st1. destruct (M !! k) as [e0|] eqn:Hk.
    - destruct (image_entry_step M HM st k e0 Hk Hsec Hb) as (?&?&?&?).
      auto.
    - unfold image_entry. rewrite Hk.
      split; [done|]. split; [done|]. split; [apply grows_refl|].
      by intros [? ?]. }
  destruct (IH st1 Hs1 Hb1) as (Hs2 & Hb2 & Hg2 & Hk2).
  split; [done|]. split; [done|]. split; [by eapply grows_trans|].
  intros k' [->|Hin]%elem_of_cons HMk; [|by apply Hk2].
  apply Hg2. auto.
Qed.

Lemma color_block_step ids st :
  section st = Some CELL_COLOR → last_comment st = None →
  below M (skills st) →
  let st' := parse_lines st (flat_map (color_entry M) ids) in
  section st' = Some CELL_COLOR ∧ last_comment st' = None
  ∧ below M (skills st') ∧ grows M (skills st) (skills st')
  ∧ (∀ k e0, k ∈ ids → M !! k = Some e0 → truthy (color e0) = true →
             color_set M (skills st') k).
Proof.
  cbn zeta. revert st. induction ids as [|k ids IH]; intros st Hsec Hlc Hb.
  { repeat split; auto using grows_refl. by intros k e0 ?%elem_of_nil. }
  cbn [flat_map]. rewrite parse_lines_app.
  set (st1 := parse_lines st (color_entry M k)).
  assert (section st1 = Some CELL_COLOR ∧ last_comment st1 = None
          ∧ below M (skills st1) ∧ grows M (skills st) (skills st1)
          ∧ (∀ e0, M !! k = Some e0 → truthy (color e0) = true →
                   color_set M (skills st1) k))
    as (Hs1 & Hl1 & Hb1 & Hg1 & Hk1).
  { subst st1. destruct (M !! k) as [e0|] eqn:Hk.
    - destruct (color_entry_step M HM st k e0 Hk Hsec Hlc Hb)
        as (?&?&?&?&Hset).
      split; [done|]. split; [done|]. split; [done|]. split; [done|].
      intros e1 Heq. by injection Heq as <-.
    - unfold color_entry. rewrite Hk.
      split; [done|]. split; [done|]. split; [done|].
      split; [apply grows_refl|]. done. }
  destruct (IH st1 Hs1 Hl1 Hb1) as (Hs2 & Hl2 & Hb2 & Hg2 & Hk2).
  split; [done|]. split; [done|]. split; [done|].
  split; [by eapply grows_trans|].
  intros k' e0 [->|Hin]%elem_of_cons HMk Ht; [|by eapply Hk2].
  apply Hg2. eauto.
Qed.

(** The body regenerated after a header, read back. *)
Lemma block_step st line :
  section st = Some (header_name line) → last_comment st = None →
  below M (skills st) →
  let st' := parse_lines st (block_after M line) in
  section st' = section st
  ∧ below M (skills st') ∧ grows M (skills st) (skills st')
  ∧ (is_header line = true → header_name line = CELL_IMAGE →
     ∀ k, is_Some (M !! k) → image_set M (skills st') k)
  ∧ (is_header line = true → header_name line = CELL_COLOR →
     ∀ k e0, M !! k = Some e0 → truthy (color e0) = true →
             color_set M (skills st') k).
Proof.
  intros Hsec Hlc Hb. cbn zeta. unfold block_after, image_block, color_block.
  destruct (is_header line);
    [|repeat split; auto using grows_refl; done].
  destruct (decide (header_name line = CELL_IMAGE)) as [Hi|Hi].
  { rewrite Hi in Hsec.
    destruct (image_block_step (skill_ids M) st Hsec Hb) as (?&?&?&Hset).
    split; [congruence|]. split; [done|]. split; [done|]. split.
    - intros _ _ k Hk. apply Hset; [|done]. by apply elem_of_skill_ids.
    - intros _ Hc. rewrite Hi in Hc. by destruct sections_differ; f_equal. }
  destruct (decide (header_name line = CELL_COLOR)) as [Hc|Hc].
  { rewrite Hc in Hsec.
    destruct (color_block_step (skill_ids M) st Hsec Hlc Hb)
      as (?&?&?&?&Hset).
    split; [congruence|]. split; [done|]. split; [done|]. split; [done|].
    intros _ _ k e0 Hk Ht. eapply Hset; [|done..].
    apply elem_of_skill_ids. eauto. }
  repeat split; auto using grows_refl; done.
Qed.

(** A raw line outside the managed bodies, read back. *)
Lemma outside_step st line :
  is_header line = false → managed (section st) = false →
  (∀ k v, skill_line line = Some (k, v) → is_Some (M !! k)) →
  below M (skills st) →
  let st' := parse_line st line in
  section st' = section st
  ∧ below M (skills st') ∧ grows M (skills st) (skills st')
  ∧ (∀ k v, skill_line line = Some (k, v) → is_Some (skills st' !! k)).
Proof.
  intros Hh Hsec HK Hb. cbn zeta. rewrite parse_line_cases, Hh.
  destruct (is_comment line) eqn:Hc.
  { rewrite comment_not_skill by done.
    repeat split; auto using grows_refl; done. }
  destruct (skill_line line) as [[k v]|];
    [|repeat split; auto using grows_refl; done].
  rewrite record_skill_other by done. cbn [section skills].
  rewrite ensure_insert. destruct (HK k v eq_refl) as [e0 He0].
  destruct (insert_step M (skills st) k
              (default empty_entry (skills st !! k)) e0)
    as [Hb' Hg]; [done|done|by left|by left|].
  split; [done|]. split; [done|]. split; [done|].
  intros k' v' [= <- <-]. by rewrite lookup_insert_eq.
Qed.

Lemma has_header_cons target line rest :
  has_header target (line :: rest) →
  (is_header line = true ∧ header_name line = target) ∨ has_header target rest.
Proof.
  intros (h & [->|Hin]%elem_of_cons & Hh & Hn); [by left|].
  right. by exists h.
Qed.

(** The whole rebuilt file, read back. *)
Lemma scan_read_back lines st :
  (∀ line k v, line ∈ lines → skill_line line = Some (k, v) →
               is_Some (M !! k)) →
  below M (skills st) →
  let st' := parse_lines st (rebuild_scan M (section st) lines) in
  below M (skills st') ∧ grows M (skills st) (skills st')
  ∧ (∀ line k v, line ∈ outside_from (section st) lines →
                 skill_line line = Some (k, v) → is_Some (skills st' !! k))
  ∧ (has_header CELL_IMAGE lines →
     ∀ k, is_Some (M !! k) → image_set M (skills st') k)
  ∧ (has_header CELL_COLOR lines →
     ∀ k e0, M !! k = Some e0 → truthy (color e0) = true →
             color_set M (skills st') k).
Proof.
  cbn zeta. revert st. induction lines as [|line rest IH]; intros st HK Hb.
  { repeat split; auto using grows_refl.
    - by intros ??? ?%elem_of_nil.
    - by intros (?&?%elem_of_nil&_).
    - by intros (?&?%elem_of_nil&_). }
  assert (∀ l k v, l ∈ rest → skill_line l = Some (k, v) → is_Some (M !! k))
    as HK' by (intros l k v Hin; apply HK; by right).
  cbn [rebuild_scan outside_from]. destruct (is_header line) eqn:Hh.
  - cbn [parse_lines fold_left]. rewrite fold_left_app.
    fold (parse_lines (parse_line st line) (block_after M line)).
    set (st1 := parse_line st line).
    assert (section st1 = Some (header_name line) ∧ last_comment st1 = None
            ∧ skills st1 = skills st) as (Hs1 & Hl1 & Hm1).
    { subst st1. by rewrite parse_line_cases, Hh. }
    destruct (block_step st1 line Hs1 Hl1) as (Hs2 & Hb2 & Hg2 & Hi2 & Hc2);
      [by rewrite Hm1|].
    set (st2 := parse_lines st1 (block_after M line)) in *.
    rewrite Hs1 in Hs2. rewrite <-Hs2.
    fold (parse_lines st2 (rebuild_scan M (section st2) rest)).
    destruct (IH st2 HK' Hb2) as (Hb3 & Hg3 & Ho3 & Hi3 & Hc3).
    rewrite Hm1 in Hg2.
    split; [done|]. split; [by eapply grows_trans|]. split; [|split].
    + intros l k v [->|Hin]%elem_of_cons Hl; [|by eapply Ho3].
      by rewrite header_not_skill in Hl.
    + intros [[_ Hn]|Hr]%has_header_cons k Hk; [|by apply Hi3].
      apply Hg3. by apply Hi2.
    + intros [[_ Hn]|Hr]%has_header_cons k e0 Hk Ht; [|by eapply Hc3].
      apply Hg3. by eapply Hc2.
  - assert (∀ target, has_header target (line :: rest) →
                      has_header target rest) as Hhd.
    { intros target [[Hh' _]|?]%has_header_cons; [congruence|done]. }
    destruct (managed (section st)) eqn:Hm.
    + destruct (IH st HK' Hb) as (Hb3 & Hg3 & Ho3 & Hi3 & Hc3).
      split; [done|]. split; [done|]. split; [done|].
      split; intros ?%Hhd; eauto.
    + cbn [parse_lines fold_left].
      destruct (outside_step st line Hh Hm) as (Hs1 & Hb1 & Hg1 & Hk1);
        [intros k v; apply HK; by left|done|].
      set (st1 := parse_line st line) in *. rewrite <-Hs1.
      fold (parse_lines st1 (rebuild_scan M (section st1) rest)).
      destruct (IH st1 HK' Hb1) as (Hb3 & Hg3 & Ho3 & Hi3 & Hc3).
      split; [done|]. split; [by eapply grows_trans|].
      split; [|split; intros ?%Hhd; eauto].
      intros l k v [->|Hin]%elem_of_cons Hl; [|by eapply Ho3].
      apply Hg3. by eapply Hk1.
Qed.

(** Rebuilding what was rebuilt changes nothing: the generated bodies hold
    no header, so the second scan skips exactly them. *)
Lemma image_entry_plain k l : l ∈ image_entry M k → is_header l = false.
Proof.
  unfold image_entry. destruct (M !! k) as [e0|] eqn:Hk;
    [|by intros ?%elem_of_nil].
  destruct (HM k e0 Hk) as (Hkey & (_ & _ & Hcm) & i & Hi & Hiv).
  rewrite Hi. cbn [format default].
  intros [Hl|Hl]%elem_of_app.
  - destruct (comment e0) as [c|]; [|by apply elem_of_nil in Hl].
    destruct (truthy (Some c)); [|by apply elem_of_nil in Hl].
    apply list_elem_of_singleton in Hl as ->.
    apply comment_not_header. by destruct (Hcm c eq_refl).
  - apply elem_of_cons in Hl as [->|Hl].
    + by destruct (skill_line_plain _ _ (skill_line_image k i Hkey Hiv)).
    + by apply list_elem_of_singleton in Hl as ->.
Qed.

Lemma color_entry_plain k l : l ∈ color_entry M k → is_header l = false.
Proof.
  unfold color_entry. destruct (M !! k) as [e0|] eqn:Hk;
    [|by intros ?%elem_of_nil].
  destruct (HM k e0 Hk) as (Hkey & (Hcol & _ & Hcm) & _).
  destruct (truthy (color e0)) eqn:Ht; [|by intros ?%elem_of_nil].
  destruct (color e0) as [v|]; [|done]. cbn [format default].
  intros [Hl|Hl]%elem_of_app.
  - destruct (comment e0) as [c|]; [|by apply elem_of_nil in Hl].
    destruct (truthy (Some c)); [|by apply elem_of_nil in Hl].
    apply list_elem_of_singleton in Hl as ->.
    apply comment_not_header. by destruct (Hcm c eq_refl).
  - apply elem_of_cons in Hl as [->|Hl].
    + by destruct (skill_line_plain _ _
                     (skill_line_color k v Hkey (Hcol v eq_refl))).
    + by apply list_elem_of_singleton in Hl as ->.
Qed.

Lemma block_after_plain line l : l ∈ block_after M line → is_header l = false.
Proof.
  unfold block_after. destruct (is_header line); [|by intros ?%elem_of_nil].
  destruct (decide _).
  { unfold image_block. intros (k & _ & Hl)%list_elem_of_In%in_flat_map.
    by eapply image_entry_plain, list_elem_of_In. }
  destruct (decide _); [|by intros ?%elem_of_nil].
  unfold color_block. intros (k & _ & Hl)%list_elem_of_In%in_flat_map.
  by eapply color_entry_plain, list_elem_of_In.
Qed.

Lemma block_after_managed line :
  block_after M line ≠ [] → managed (Some (header_name line)) = true.
Proof.
  unfold block_after. destruct (is_header line); [|done].
  destruct (decide (header_name line = CELL_IMAGE)) as [->|]; [done|].
  destruct (decide (header_name line = CELL_COLOR)) as [->|]; done.
Qed.

Lemma rebuild_scan_skip sec block lines :
  (block ≠ [] → managed sec = true) →
  (∀ l, l ∈ block → is_header l = false) →
  rebuild_scan M sec (block ++ lines) = rebuild_scan M sec lines.
Proof.
  intros Hm Hplain. induction block as [|l block IH]; [done|].
  cbn [app rebuild_scan]. rewrite (Hplain l) by left.
  rewrite Hm by done. apply IH; [intros _; by apply Hm|].
  intros l' ?. apply Hplain. by right.
Qed.

Lemma rebuild_scan_idemp sec lines :
  rebuild_scan M sec (rebuild_scan M sec lines) = rebuild_scan M sec lines.
Proof.
  revert sec. induction lines as [|line rest IH]; intros sec; [done|].
  cbn [rebuild_scan]. destruct (is_header line) eqn:Hh.
  - cbn [rebuild_scan]. rewrite Hh. do 2 f_equal.
    rewrite rebuild_scan_skip
      by eauto using block_after_managed, block_after_plain.
    apply IH.
  - destruct (managed sec) eqn:Hm; [done|].
    cbn [rebuild_scan]. by rewrite Hh, Hm, IH.
Qed.

End read_back.

(** ** Load, save, load again *)

Section load_save_load.

Implicit Types (P M : gmap string entry) (lines : list string).

Lemma lookup_apply_filename_rules P k :
  apply_filename_rules P !! k = infer_image k <$> P !! k.
Proof.
  unfold apply_filename_rules. rewrite map_lookup_imap.
  by destruct (P !! k).
Qed.

Lemma saved_ok_infer P : map_ok P → saved_ok (apply_filename_rules P).
Proof.
  intros HP k e. rewrite lookup_apply_filename_rules.
  destruct (P !! k) as [p|] eqn:Hp; [|done]. intros [= <-].
  destruct (HP k p Hp) as [Hk He]. split; [done|].
  by apply infer_image_ok.
Qed.

Lemma has_header_opens target lines :
  opens target None lines → has_header target lines.
Proof. by intros [?|?]. Qed.

(** The filename rule on an entry read back from the rebuilt file gives the
    entry that was saved. *)
Lemma infer_image_recovers k p e :
  let e0 := infer_image k p in
  color e = color e0 → comment e = comment e0 →
  (image e = image e0 ∨ (image e = None ∧ truthy (image p) = false)) →
  (∃ i, image e0 = Some i ∧ value_ok i) →
  infer_image k e = e0.
Proof.
  cbn zeta. intros Hc Hm Hi (i & Hi0 & Hne & _).
  destruct (infer_image_fields k p) as [Hm0 Hc0].
  rewrite Hc0 in Hc. rewrite Hm0 in Hm. destruct Hi as [Hi|[Hi Hp]].
  - assert (truthy (image e) = true) as Ht.
    { rewrite Hi, Hi0. cbn. by destruct (String.eqb_spec i ""). }
    unfold infer_image at 1. rewrite Ht. cbn [negb].
    destruct e as [ec ei eo], (infer_image k p) as [c0 i0 o0].
    cbn in *. by subst.
  - unfold infer_image. rewrite Hp, Hi. cbn [truthy negb]. rewrite Hm.
    destruct (if truthy (comment p) then _ else _) as [[? ?]|];
      destruct e, p; unfold set_image; cbn in *; congruence.
Qed.

Lemma second_parse_recovers lines :
  let P := skills (parse_lines initial lines) in
  let M := apply_filename_rules P in
  map_ok P →
  apply_filename_rules (skills (parse_lines initial (rebuild_lines M lines)))
  = M.
Proof.
  intros P M HP. pose proof (saved_ok_infer P HP) as HM. fold M in HM.
  destruct (scan_read_back M HM lines initial) as (Hb & _ & Ho & Hi & Hc).
  { intros line k v Hin Hl.
    destruct (parse_lines_keys initial lines line k v Hin Hl) as [p Hp].
    change (skills (parse_lines initial lines)) with P in Hp.
    subst M. rewrite lookup_apply_filename_rules, Hp. eauto. }
  { intros k e He. cbn in He. by rewrite lookup_empty in He. }
  cbn [initial section] in *. rewrite <-rebuild_lines_scan in *.
  set (T := skills (parse_lines initial (rebuild_lines M lines))) in *.
  apply map_eq. intros k. rewrite lookup_apply_filename_rules.
  destruct (M !! k) as [e0|] eqn:HMk.
  2:{ destruct (T !! k) as [e|] eqn:HT; [|done].
      destruct (Hb k e HT) as (e0 & ? & _). congruence. }
  pose proof HMk as HMk'. subst M. rewrite lookup_apply_filename_rules in HMk'.
  fold P in HMk'. destruct (P !! k) as [p|] eqn:Hp; [|done].
  injection HMk' as He0. set (M := apply_filename_rules P) in *.
  destruct (HP k p Hp) as (Hkey & Hpc & Hpi & Hpm).
  destruct (HM k e0 HMk) as (_ & _ & Himg).
  destruct (infer_image_fields k p) as [Hm0 Hc0]. rewrite He0 in Hm0, Hc0.
  pose proof (parse_lines_color initial lines k) as Hcol.
  pose proof (parse_lines_image initial lines k) as Himage.
  fold P in Hcol, Himage. rewrite Hp in Hcol, Himage.
  cbn [initial skills section from_option] in Hcol, Himage.
  rewrite lookup_empty in Hcol, Himage. cbn [from_option] in Hcol, Himage.
  (* a colour that was parsed is read back *)
  assert (∀ v, color p = Some v → color_set M T k) as Hcset.
  { intros v Hv. eapply Hc; [|done|].
    - apply has_header_opens, (writes_opens _ k).
      intros Hw. rewrite Hw, Hv in Hcol. done.
    - rewrite Hc0, Hv. destruct (Hpc v Hv) as (Hne & _). cbn.
      by destruct (String.eqb_spec v ""). }
  (* a parsed image is read back *)
  assert (∀ i, image p = Some i → image_set M T k) as Hiset.
  { intros i Hpi'. apply Hi; [|by rewrite HMk].
    apply has_header_opens, (writes_opens _ k).
    intros Hw. rewrite Hw, Hpi' in Himage. done. }
  assert (is_Some (T !! k)) as [e HT].
  { destruct (key_origin initial lines k) as [H|[H|[H|H]]].
    - fold P. by rewrite Hp.
    - cbn in H. rewrite lookup_empty in H. by destruct H.
    - destruct H as (line & v & Hin & Hl). by eapply Ho.
    - destruct (Hi (has_header_opens _ _ H) k) as (e & _ & HT & _);
        [by rewrite HMk|]. eauto.
    - cbn [initial section] in H.
      destruct (last (writes CELL_COLOR k None lines)) as [v|] eqn:Hw.
      + destruct (Hcset v) as (e & _ & HT & _); [by rewrite Hcol|]. eauto.
      + by apply last_None in Hw. }
  rewrite HT. cbn [fmap option_fmap option_map]. f_equal.
  destruct (Hb k e HT) as (e0' & He0' & Hbi & Hbc).
  rewrite HMk in He0'. injection He0' as <-. rewrite <-He0.
  apply infer_image_recovers; rewrite ?He0; [| |..].
  - destruct (color p) as [v|] eqn:Hv.
    + destruct (Hcset v eq_refl) as (e1 & e2 & H1 & H2 & H3 & _).
      rewrite HT in H1. rewrite HMk in H2. congruence.
    + destruct Hbc as [[? _]|(_ & _ & Ht)]; [congruence|].
      by rewrite Hc0 in Ht.
  - destruct (color p) as [v|] eqn:Hv.
    + destruct (Hcset v eq_refl) as (e1 & e2 & H1 & H2 & _ & H4).
      rewrite HT in H1. rewrite HMk in H2. congruence.
    + destruct Hbc as [[_ Hn]|(_ & _ & Ht)]; [|by rewrite Hc0 in Ht].
      rewrite Hn, Hm0. destruct (comment p) as [c|] eqn:Hcm; [|done].
      by destruct (Hpm c eq_refl) as (_ & _ & ?).
  - destruct Hbi as [Hn|?]; [|by left].
    destruct (truthy (image p)) eqn:Ht; [|by right].
    destruct (image p) as [i|] eqn:Hpi'; [|done].
    destruct (Hiset i eq_refl) as (e1 & e2 & H1 & H2 & H3).
    rewrite HT in H1. rewrite HMk in H2. left. congruence.
  - done.
Qed.

(** The rebuilt lines hold no line boundary. *)
Lemma rebuild_lines_nobreak M lines :
  saved_ok M → Forall nobreak lines → Forall nobreak (rebuild_lines M lines).
Proof.
  intros HM Hl. rewrite line_preservation_aux.
  assert (Forall nobreak (outside_lines lines)) as Ho.
  { unfold outside_lines. generalize (None : option string).
    induction Hl as [|x l Hx _ IH]; intros sec; cbn [outside_from];
      [constructor|].
    destruct (is_header x); [by constructor|].
    destruct (managed sec); [done|by constructor]. }
  assert (∀ k, Forall nobreak (image_entry M k)
               ∧ Forall nobreak (color_entry M k)) as Hentry.
  { intros k. unfold image_entry, color_entry.
    destruct (M !! k) as [e0|] eqn:Hk; [|by split].
    destruct (HM k e0 Hk)
      as ((_ & _ & _ & Hkn) & (Hcol & _ & Hcm) & i & Hi & _ & _ & Hin).
    assert (Forall nobreak
              (if truthy (comment e0) then [default "" (comment e0)] else []))
      as Hc.
    { destruct (comment e0) as [c|]; [|done].
      destruct (truthy (Some c)); [|done].
      destruct (Hcm c eq_refl) as (_ & ? & _). by repeat constructor. }
    split.
    - apply Forall_app. split; [done|]. rewrite Hi. cbn [format default].
      repeat constructor. by rewrite !nobreak_app.
    - destruct (truthy (color e0)) eqn:Ht; [|done].
      destruct (color e0) as [v|]; [|done].
      destruct (Hcol v eq_refl) as (_ & _ & Hvn).
      apply Forall_app. split; [done|]. cbn [format default].
      repeat constructor. by rewrite !nobreak_app. }
  assert (∀ l, Forall nobreak (block_after M l)) as Hblock.
  { intros l. unfold block_after, image_block, color_block.
    destruct (is_header l); [|done]. repeat case_decide; [| |done].
    - induction (skill_ids M) as [|k ids IH]; [done|]. cbn [flat_map].
      apply Forall_app. split; [apply Hentry|done].
    - induction (skill_ids M) as [|k ids IH]; [done|]. cbn [flat_map].
      apply Forall_app. split; [apply Hentry|done]. }
  induction Ho as [|x l Hx _ IH]; [done|]. cbn [flat_map].
  constructor; [done|]. apply Forall_app. by split.
Qed.

End load_save_load.

(** C1: for a well-formed text, saving the loaded file and loading what
    was saved gives back the same dictionary, and saving again gives the same
    text. *)
Theorem round_trip_idempotent text :
  well_formed text = true →
  round_trip (round_trip text) = round_trip text.
Proof.
  intros Hwf. unfold well_formed in Hwf.
  pose proof (splitlines_nobreak text) as Hnb.
  unfold round_trip at 2 3, parse_and_infer, parse_ini.
  remember (splitlines text) as lines eqn:Hlines. clear Hlines.
  set (P := skills (parse_lines initial lines)).
  set (M := apply_filename_rules P).
  destruct (decide (lines = [])) as [->|Hne].
  { subst M P. unfold rebuild_ini. simp rebuild_lines. by vm_compute. }
  assert (map_ok P) as HP.
  { destruct (parse_lines_ok initial lines) as [HP _]; [|done..].
    split; [|done]. intros k e He. cbn in He. by rewrite lookup_empty in He. }
  pose proof (saved_ok_infer P HP) as HM. fold M in HM.
  assert (splitlines (rebuild_ini lines M) = rebuild_lines M lines) as Hsplit.
  { unfold rebuild_ini. apply splitlines_join.
    - destruct lines; [done|]. by rewrite rebuild_lines_cons.
    - by apply rebuild_lines_nobreak. }
  unfold round_trip, parse_and_infer, parse_ini. rewrite Hsplit.
  subst M P. rewrite second_parse_recovers by done.
  unfold rebuild_ini. f_equal. f_equal.
  rewrite !rebuild_lines_scan. by apply rebuild_scan_idemp.
Qed.

(** Texts that follow the file format are well formed. *)
Lemma colors_valid_present sec lines :
  colors_valid sec lines = true → colors_present sec lines = true.
Proof.
  revert sec. induction lines as [|line rest IH]; intros sec; [done|].
  cbn [colors_valid colors_present]. destruct (is_header line); [apply IH|].
  intros [Hv Hrest]%andb_true_iff. rewrite (IH _ Hrest), andb_true_r.
  case_decide; [|done]. destruct (skill_line line) as [[k v]|]; [|done].
  by destruct v.
Qed.

Lemma round_trip_idempotent_witness :
  round_trip (round_trip sample_text) = round_trip sample_text.
Proof. exact (round_trip_idempotent sample_text eq_refl). Defined.

Example round_trip_sample :
  splitlines (round_trip sample_text)
  = ["; plugin"; "[LGP::CELL_COLOR]";
     "Skill0001=0xff00ff00"; "";
     "; #Fireball"; "Skill0002=0xFFFF0000"; "";
     "[Other]"; "Skill0003 = 5"; "[LGP::CELL_IMAGE]";
     "Skill0001 = old.bmp"; "";
     "; #Fireball"; "Skill0002 = fireball.bmp"; "";
     "Skill0003 = skill0003.bmp"; ""].
Proof. by vm_compute. Qed.

(** Outside the well-formed texts the second save can differ from the first:
    the comment of an entry whose colour is empty is written once, into the
    image section, and is not read back. *)
Example round_trip_empty_color :
  well_formed empty_color_text = false
  ∧ round_trip (round_trip empty_color_text) ≠ round_trip empty_color_text.
Proof. split; [reflexivity|]. by vm_compute. Qed.

(** ** More on the colour helpers *)

Section codec_more.

Lemma byte_cases (P : N → bool) :
  forallb P (List.map N.of_nat (seq 0 256)) = true →
  ∀ n, is_byte n = true → P n = true.
Proof.
  intros Hall n Hn. apply N.ltb_lt in Hn.
  rewrite forallb_forall in Hall. apply Hall.
  apply in_map_iff. exists (N.to_nat n). split; [apply N2Nat.id|].
  apply in_seq. lia.
Qed.

(** Two uppercase hex digits for a byte. *)
Lemma format_02X_byte n :
  is_byte n = true →
  ∃ x y, format_02X n = String x (String y "")
         ∧ Forall (λ d, is_hex d = true
                        ∧ Ascii.eqb (lower_char d) "#" = false
                        ∧ upper_char (lower_char d) = d) [x; y].
Proof.
  intros Hn.
  pose proof (byte_cases
    (λ n, match format_02X n with
          | String x (String y "") =>
              forallb (λ d, is_hex d
                            && negb (Ascii.eqb (lower_char d) "#")
                            && Ascii.eqb (upper_char (lower_char d)) d) [x; y]
          | _ => false
          end) ltac:(by vm_compute) n Hn) as H.
  cbn beta in H. destruct (format_02X n) as [|x [|y [|? ?]]]; try done.
  exists x, y. split; [done|].
  rewrite forallb_forall in H. apply Forall_forall. intros d Hd.
  apply list_elem_of_In, H in Hd.
  repeat (apply andb_true_iff in Hd as [Hd ?]).
  split; [done|]. split; [by apply negb_true_iff|by apply Ascii.eqb_eq].
Qed.

Lemma rgb_to_ini_eq r g b old :
  rgb_to_ini r g b old
  = Ok ("0x" +:+ alpha_of old +:+ format_02X r +:+ format_02X g
        +:+ format_02X b).
Proof.
  unfold rgb_to_ini, alpha_of, stored_ok.
  destruct old as [o|]; [|done]. cbn [truthy default].
  destruct (String.eqb_spec o "") as [->|]; [done|]. cbn [negb and_then].
  unfold py_startswith, py_len, py_slice. cbn [mbind result_bind].
  destruct (startswith o "0x"); [|done]. cbn [and_then andb mbind result_bind].
  by destruct (String.length o =? 10).
Qed.

Lemma alpha_of_two old : ∃ x y, alpha_of old = String x (String y "").
Proof.
  unfold alpha_of. destruct (stored_ok old) eqn:E; [|by exists "F"%char, "F"%char].
  destruct old as [o|]; [|done]. cbn in E.
  apply andb_true_iff in E as [_ Hl%Nat.eqb_eq].
  do 10 (destruct o as [|? o]; [done|]). destruct o; [|done].
  cbn. eauto.
Qed.

Lemma tk_to_ini_eq h old :
  h ≠ "" → alpha_ok old = true →
  tk_to_ini (Some h) old
  = Ok (Some ("0x" +:+ alpha_of old +:+ upper (remove "#" h))).
Proof.
  intros Hh Hold. rewrite tk_to_ini_alpha by done. do 3 f_equal.
  unfold alpha_ok, alpha_of in *. destruct old as [o|]; [|done].
  cbn [default]. destruct (stored_ok (Some o)) eqn:Hs.
  - cbn in Hs. apply andb_true_iff in Hs as [-> _]. done.
  - cbn [orb] in Hold. apply negb_true_iff in Hold. cbn [truthy] in Hold.
    destruct (startswith o "0x") eqn:Hp; [|done].
    rewrite andb_true_r in Hold. apply negb_false_iff in Hold.
    apply String.eqb_eq in Hold as ->. done.
Qed.

Lemma rgb_to_ini_again r1 g1 b1 r2 g2 b2 old :
  is_byte r1 = true → is_byte g1 = true → is_byte b1 = true →
  (s ← rgb_to_ini r1 g1 b1 old; rgb_to_ini r2 g2 b2 (Some s))
  = rgb_to_ini r2 g2 b2 old.
Proof.
  intros Hr Hg Hb. rewrite !rgb_to_ini_eq. cbn [mbind result_bind].
  rewrite rgb_to_ini_eq. do 2 f_equal.
  destruct (alpha_of_two old) as (a1 & a2 & ->).
  destruct (format_02X_byte r1 Hr) as (x1 & x2 & -> & _).
  destruct (format_02X_byte g1 Hg) as (y1 & y2 & -> & _).
  destruct (format_02X_byte b1 Hb) as (z1 & z2 & -> & _).
  reflexivity.
Qed.

End codec_more.

(** X1: for byte components, [rgb_to_ini] returns, without raising and for
    any previous value, a well-formed stored colour: [0x], the alpha digits
    of the previous value when that one is well formed and [FF] otherwise,
    then the three components as uppercase hex digit pairs. *)
Theorem rgb_to_ini_bytes r g b old :
  is_byte r = true → is_byte g = true → is_byte b = true →
  ∃ s, rgb_to_ini r g b old = Ok s
       ∧ stored_ok (Some s) = true
       ∧ slice 2 4 s = (if stored_ok old then slice 2 4 (default "" old)
                        else "FF")
       ∧ slice_from 4 s = format_02X r +:+ format_02X g +:+ format_02X b
       ∧ all_chars is_hex (slice_from 4 s) = true.
Proof.
  intros Hr Hg Hb. rewrite rgb_to_ini_eq. eexists. split; [done|].
  fold (alpha_of old). destruct (alpha_of_two old) as (a1 & a2 & ->).
  destruct (format_02X_byte r Hr) as (r1 & r2 & -> & Hrd).
  destruct (format_02X_byte g Hg) as (g1 & g2 & -> & Hgd).
  destruct (format_02X_byte b Hb) as (b1 & b2 & -> & Hbd).
  repeat match goal with
         | H : Forall _ (_ :: _) |- _ => apply Forall_cons in H as [(?&_) H]
         end.
  cbn. repeat split; try done.
  repeat (apply andb_true_iff; split); done.
Qed.

Lemma rgb_to_ini_bytes_witness :
  ∃ s, rgb_to_ini 255 10 0 (Some "0x80112233") = Ok s
       ∧ stored_ok (Some s) = true
       ∧ slice 2 4 s = "80"
       ∧ slice_from 4 s = "FF0A00"
       ∧ all_chars is_hex (slice_from 4 s) = true.
Proof.
  exact (rgb_to_ini_bytes 255 10 0 (Some "0x80112233") eq_refl eq_refl eq_refl).
Defined.

(** A component above 255 makes the result too long to be well formed. *)
Example rgb_to_ini_large :
  rgb_to_ini 256 0 0 None = Ok "0xFF1000000"
  ∧ stored_ok (Some "0xFF1000000") = false.
Proof. by vm_compute. Qed.

(** X2: the colour sampled by the pipette is the colour shown: for byte
    components and any previous value, [ini_to_tk] of the result of
    [rgb_to_ini] is [#] followed by the three components in lowercase hex. *)
Theorem ini_to_tk_rgb_to_ini r g b old :
  is_byte r = true → is_byte g = true → is_byte b = true →
  (s ← rgb_to_ini r g b old; ini_to_tk (Some s))
  = Ok ("#" +:+ lower (format_02X r +:+ format_02X g +:+ format_02X b)).
Proof.
  intros Hr Hg Hb. rewrite rgb_to_ini_eq. cbn [mbind result_bind].
  destruct (alpha_of_two old) as (a1 & a2 & ->).
  destruct (format_02X_byte r Hr) as (r1 & r2 & -> & _).
  destruct (format_02X_byte g Hg) as (g1 & g2 & -> & _).
  destruct (format_02X_byte b Hb) as (b1 & b2 & -> & _).
  reflexivity.
Qed.

Lemma ini_to_tk_rgb_to_ini_witness :
  (s ← rgb_to_ini 255 10 0 (Some "0x80112233"); ini_to_tk (Some s))
  = Ok "#ff0a00".
Proof.
  exact (ini_to_tk_rgb_to_ini 255 10 0 (Some "0x80112233")
           eq_refl eq_refl eq_refl).
Defined.

(** X3: the colour dialog and the pipette store the same value for the same
    colour: when the previous value gives a two-character alpha, [tk_to_ini]
    on the display form of byte components returns what [rgb_to_ini]
    returns on the components. *)
Theorem tk_to_ini_rgb_to_ini r g b old :
  is_byte r = true → is_byte g = true → is_byte b = true →
  alpha_ok old = true →
  tk_to_ini
    (Some ("#" +:+ lower (format_02X r +:+ format_02X g +:+ format_02X b)))
    old
  = (s ← rgb_to_ini r g b old; Ok (Some s)).
Proof.
  intros Hr Hg Hb Hold. rewrite rgb_to_ini_eq, tk_to_ini_eq by done.
  cbn [mbind result_bind]. do 4 f_equal.
  destruct (format_02X_byte r Hr) as (r1 & r2 & -> & Hrd).
  destruct (format_02X_byte g Hg) as (g1 & g2 & -> & Hgd).
  destruct (format_02X_byte b Hb) as (b1 & b2 & -> & Hbd).
  repeat match goal with
         | H : Forall _ (_ :: _) |- _ =>
             apply Forall_cons in H as [(_ & ? & ?) H]
         end.
  cbv [String.append lower upper]. simpl.
  repeat match goal with
         | H : Ascii.eqb _ _ = false |- _ => rewrite H; clear H
         end.
  simpl. congruence.
Qed.

Lemma tk_to_ini_rgb_to_ini_witness :
  tk_to_ini (Some "#ff0a00") (Some "0x80112233") = Ok (Some "0x80FF0A00").
Proof.
  exact (tk_to_ini_rgb_to_ini 255 10 0 (Some "0x80112233")
           eq_refl eq_refl eq_refl eq_refl).
Defined.

Lemma hex_char_lower d :
  is_hex d = true →
  Ascii.eqb d "#" = false ∧ lower_char (upper_char d) = lower_char d.
Proof. by destruct d as [[] [] [] [] [] [] [] []]. Qed.

(** X4: the display form survives the stored form: for a display colour
    [#] and six hex digits, and a previous value that gives a two-character
    alpha, [ini_to_tk] of the result of [tk_to_ini] is the display colour in
    lowercase. *)
Theorem ini_to_tk_tk_to_ini h old :
  valid_display h = true → alpha_ok old = true →
  (c ← tk_to_ini (Some h) old; ini_to_tk c) = Ok (lower h).
Proof.
  intros Hh Hold. rewrite tk_to_ini_eq by (done || by destruct h).
  cbn [mbind result_bind]. destruct (alpha_of_two old) as (a1 & a2 & ->).
  destruct h as [|c h6]; [done|]. cbn [valid_display] in Hh.
  apply andb_true_iff in Hh as [[->%Ascii.eqb_eq Hl%Nat.eqb_eq]%andb_true_iff Hx].
  do 6 (destruct h6 as [|? h6]; [done|]). destruct h6; [|done].
  cbn in Hx. repeat (apply andb_true_iff in Hx as [[? ?]%hex_char_lower Hx]).
  simpl.
  repeat match goal with
         | H : Ascii.eqb _ _ = false |- _ => rewrite H; clear H
         end.
  cbv [String.append lower upper]. simpl. unfold ini_to_tk. cbn.
  cbv [String.append lower PyStr.map].
  change (lower_char "#") with "#"%char. congruence.
Qed.

Lemma ini_to_tk_tk_to_ini_witness :
  (c ← tk_to_ini (Some "#FFaa00") (Some "0x80112233"); ini_to_tk c)
  = Ok "#ffaa00".
Proof.
  exact (ini_to_tk_tk_to_ini "#FFaa00" (Some "0x80112233") eq_refl eq_refl).
Defined.

(** ** More on the parser, the filename rule and the rebuilder *)

Section parser_more.

Implicit Types (m : gmap string entry) (st : pstate).

Lemma parse_lines_dom st lines k :
  is_Some (skills (parse_lines st lines) !! k)
  ↔ is_Some (skills st !! k)
    ∨ ∃ line v, line ∈ lines ∧ skill_line line = Some (k, v).
Proof.
  revert st. induction lines as [|x rest IH]; intros st.
  { split; [by left|]. intros [?|(?&?&?%elem_of_nil&_)]; done. }
  rewrite parse_lines_cons, IH, parse_line_dom. split.
  - intros [[?|[v Hv]]|(line & v & Hin & Hl)]; [by left| |].
    + right. exists x, v. split; [left|done].
    + right. exists line, v. split; [by right|done].
  - intros [?|(line & v & [->|Hin]%elem_of_cons & Hl)]; [by left; left| |].
    + left; right. eauto.
    + right. eauto.
Qed.

(** Comments come from the text and only together with a colour. *)
Lemma parse_lines_comments (L : list string) st lines :
  (∀ l, l ∈ lines → l ∈ L) →
  (∀ k e c, skills st !! k = Some e → comment e = Some c →
            c ∈ L ∧ is_comment c = true ∧ is_Some (color e)) →
  (∀ c, last_comment st = Some c → c ∈ L ∧ is_comment c = true) →
  let st' := parse_lines st lines in
  (∀ k e c, skills st' !! k = Some e → comment e = Some c →
            c ∈ L ∧ is_comment c = true ∧ is_Some (color e))
  ∧ (∀ c, last_comment st' = Some c → c ∈ L ∧ is_comment c = true).
Proof.
  cbn zeta. revert st. induction lines as [|line rest IH]; intros st HL Hm Hc;
    [done|].
  rewrite parse_lines_cons.
  assert (line ∈ L) as Hline by (apply HL; left).
  apply IH; [intros l ?; apply HL; by right|..];
    rewrite parse_line_cases; destruct (is_header line) eqn:Hh; try done;
    destruct (is_comment line) eqn:Hcm; try done;
    try (by intros c [= <-]);
    destruct (skill_line line) as [[key v]|]; try done.
  - (* entries after a skill line *)
    assert (∀ c, comment (default empty_entry (skills st !! key)) = Some c →
                 c ∈ L ∧ is_comment c = true
                 ∧ is_Some (color (default empty_entry (skills st !! key))))
      as Hold.
    { destruct (skills st !! key) as [e|] eqn:E; [|done].
      intros c ?. by apply (Hm key e c). }
    destruct (decide (section st = Some CELL_COLOR)).
    { rewrite record_skill_color by done. cbn zeta. cbn [skills].
      intros k' e' c'. rewrite lookup_insert. case_decide; [|apply Hm].
      intros [= <-]. cbn [comment color]. intros Hcc.
      assert (c' ∈ L ∧ is_comment c' = true) as [? ?]; [|by split_and!].
      destruct (truthy (last_comment st));
        [by apply Hc|by destruct (Hold c' Hcc) as (?&?&_)]. }
    destruct (decide (section st = Some CELL_IMAGE)).
    { rewrite record_skill_image by done. cbn [skills].
      intros k' e' c'. rewrite lookup_insert. case_decide; [|apply Hm].
      intros [= <-]. apply Hold. }
    rewrite record_skill_other
      by (unfold managed; by rewrite !bool_decide_eq_false_2).
    cbn [skills]. rewrite ensure_insert.
    intros k' e' c'. rewrite lookup_insert. case_decide; [|apply Hm].
    intros [= <-]. apply Hold.
  - (* the pending comment after a skill line *)
    destruct (decide (section st = Some CELL_COLOR)).
    { rewrite record_skill_color by done. cbn zeta. cbn [last_comment].
      destruct (truthy (last_comment st)); [done|apply Hc]. }
    destruct (decide (section st = Some CELL_IMAGE)).
    { by rewrite record_skill_image. }
    by rewrite record_skill_other
      by (unfold managed; by rewrite !bool_decide_eq_false_2).
Qed.

Lemma bmp_nonempty s : truthy (Some (s +:+ ".bmp")) = true.
Proof. by destruct s. Qed.

Lemma infer_image_truthy k e : truthy (image (infer_image k e)) = true.
Proof.
  unfold infer_image. destruct (truthy (image e)) eqn:Ht; [done|].
  cbn [negb]. destruct (if truthy (comment e) then _ else _) as [[? ?]|];
    apply bmp_nonempty.
Qed.

Lemma infer_image_kept k e : truthy (image e) = true → infer_image k e = e.
Proof. unfold infer_image. by intros ->. Qed.

End parser_more.

(** X5: the parsed dictionary holds exactly the identifiers of the skill
    lines of the text, whatever section they stand in, and each of them
    starts with [Skill] and has nine characters. *)
Theorem parse_ini_keys text k :
  (is_Some ((parse_ini text).2 !! k)
   ↔ ∃ line v, line ∈ splitlines text ∧ skill_line line = Some (k, v))
  ∧ (is_Some ((parse_ini text).2 !! k) → is_skill_key k = true).
Proof.
  assert (is_Some ((parse_ini text).2 !! k)
          ↔ ∃ line v, line ∈ splitlines text ∧ skill_line line = Some (k, v))
    as Hiff.
  { unfold parse_ini. cbn [snd]. rewrite parse_lines_dom.
    cbn [initial skills]. rewrite lookup_empty. split; [|by right].
    intros [[? ?]|?]; done. }
  split; [done|]. intros (line & v & _ & Hl)%Hiff.
  by destruct (skill_line_parts _ _ _ Hl).
Qed.

Lemma parse_ini_keys_witness :
  is_skill_key "Skill0003" = true.
Proof.
  refine (proj2 (parse_ini_keys sample_text "Skill0003") _).
  vm_compute. eexists. reflexivity.
Defined.

(** X6: after parsing, the comment of an entry is one of the comment lines
    of the text, and an entry that has a comment has a colour. *)
Theorem parse_ini_comments text k e c :
  (parse_ini text).2 !! k = Some e → comment e = Some c →
  c ∈ splitlines text ∧ is_comment c = true ∧ is_Some (color e).
Proof.
  unfold parse_ini. cbn [snd].
  by apply (parse_lines_comments (splitlines text) initial (splitlines text)).
Qed.

Lemma parse_ini_comments_witness :
  "; #Fireball" ∈ splitlines sample_text
  ∧ is_comment "; #Fireball" = true
  ∧ is_Some (Some "0xFFFF0000").
Proof.
  exact (parse_ini_comments sample_text "Skill0002"
           (Entry (Some "; #Fireball") None (Some "0xFFFF0000"))
           "; #Fireball" eq_refl eq_refl).
Defined.

(** X7: the filename rule is idempotent; it gives every entry a non-empty
    image, keeps the image of an entry that has one, and changes neither a
    comment nor a colour nor the set of identifiers. *)
Theorem apply_filename_rules_idempotent m k :
  apply_filename_rules (apply_filename_rules m) = apply_filename_rules m
  ∧ match m !! k with
    | Some e =>
        ∃ e', apply_filename_rules m !! k = Some e'
              ∧ truthy (image e') = true
              ∧ comment e' = comment e ∧ color e' = color e
              ∧ (truthy (image e) = true → e' = e)
    | None => apply_filename_rules m !! k = None
    end.
Proof.
  split.
  - apply map_eq. intros k'. rewrite !lookup_apply_filename_rules.
    destruct (m !! k') as [e|]; [|done]. cbn. f_equal.
    apply infer_image_kept, infer_image_truthy.
  - rewrite lookup_apply_filename_rules. destruct (m !! k) as [e|]; [|done].
    exists (infer_image k e). destruct (infer_image_fields k e) as [? ?].
    split_and!; auto using infer_image_truthy, infer_image_kept.
Qed.

Example apply_filename_rules_ex :
  apply_filename_rules
    {[ "Skill0007" := Entry None None None;
       "Skill0008" := Entry (Some "; #Fire Ball ") (Some "") (Some "0xFF000000");
       "Skill0009" := Entry (Some "; #Ice") (Some "x.bmp") None ]}
  = {[ "Skill0007" := Entry None (Some "skill0007.bmp") None;
       "Skill0008" := Entry (Some "; #Fire Ball ") (Some "fire ball.bmp")
                        (Some "0xFF000000");
       "Skill0009" := Entry (Some "; #Ice") (Some "x.bmp") None ]}.
Proof. by vm_compute. Qed.

Section rebuild_more.

Implicit Types (m : gmap string entry) (lines : list string).

Lemma has_headerb_cons target line rest :
  has_headerb target (line :: rest) = false →
  (is_header line = true → header_name line ≠ target)
  ∧ has_headerb target rest = false.
Proof.
  unfold has_headerb. cbn [existsb]. intros [H1 H2]%orb_false_iff.
  split; [|done]. intros Hh Hn. rewrite Hh, Hn in H1.
  by rewrite String.eqb_refl in H1.
Qed.

Lemma has_headerb_true target lines :
  has_headerb target lines = true → has_header target lines.
Proof.
  unfold has_headerb. intros (h & Hin & [Hh Hn%String.eqb_eq]%andb_true_iff)%existsb_exists.
  exists h. by rewrite list_elem_of_In.
Qed.

Lemma rebuild_scan_plain m sec lines :
  managed sec = false →
  has_headerb CELL_IMAGE lines = false →
  has_headerb CELL_COLOR lines = false →
  rebuild_scan m sec lines = lines.
Proof.
  revert sec. induction lines as [|line rest IH]; intros sec Hsec Hi Hc;
    [done|].
  apply has_headerb_cons in Hi as [Hi Hi'], Hc as [Hc Hc'].
  cbn [rebuild_scan]. unfold block_after.
  destruct (is_header line) eqn:Hh.
  - rewrite !decide_False by auto. cbn [app]. f_equal. apply IH; [|done..].
    unfold managed. rewrite !bool_decide_eq_false_2; [done|..];
      intros [= ?]; naive_solver.
  - rewrite Hsec. f_equal. by apply IH.
Qed.

End rebuild_more.

(** X8: when the raw lines hold neither managed header, the rebuilder
    returns them as they are, whatever the dictionary holds: the text saved is
    the lines joined by newlines plus one, and no edit reaches the file. *)
Theorem rebuild_without_sections lines m :
  has_headerb CELL_IMAGE lines = false →
  has_headerb CELL_COLOR lines = false →
  rebuild_lines m lines = lines
  ∧ rebuild_ini lines m = join_lines lines +:+ String LF "".
Proof.
  intros Hi Hc.
  assert (rebuild_lines m lines = lines) as H.
  { rewrite rebuild_lines_scan. by apply rebuild_scan_plain. }
  split; [done|]. unfold rebuild_ini. by rewrite H.
Qed.

Lemma rebuild_without_sections_witness :
  rebuild_lines sample_skills ["[General]"; "Skill0001 = a.bmp"; ""]
  = ["[General]"; "Skill0001 = a.bmp"; ""].
Proof.
  exact (proj1 (rebuild_without_sections
                  ["[General]"; "Skill0001 = a.bmp"; ""] sample_skills
                  eq_refl eq_refl)).
Defined.

(** ** Saving an edited dictionary and loading it again *)

Section save_load.

Implicit Types (m : gmap string entry) (lines : list string).

Lemma trimmedb_true s : trimmedb s = true → trimmed s.
Proof.
  unfold trimmedb. by intros [?%String.eqb_eq ?%String.eqb_eq]%andb_true_iff.
Qed.

Lemma key_check_true k : key_check k = true → key_ok k.
Proof.
  unfold key_check. intros [[[? ?%trimmedb_true]%andb_true_iff Hl]%andb_true_iff ?]%andb_true_iff.
  split_and!; try done. unfold lacks. by destruct (split_once "=" k).
Qed.

Lemma value_check_true v : value_check v = true → value_ok v.
Proof.
  unfold value_check.
  intros [[Hne%negb_true_iff ?%trimmedb_true]%andb_true_iff ?]%andb_true_iff.
  split_and!; try done. intros ->. done.
Qed.

Lemma entry_check_true e :
  entry_check e = true → entry_ok e ∧ ∃ i, image e = Some i ∧ value_ok i.
Proof.
  unfold entry_check. intros [[Hc Hi]%andb_true_iff Hm]%andb_true_iff.
  split; [split_and!|].
  - intros v Hv. rewrite Hv in Hc. by apply value_check_true.
  - intros i Hi'. rewrite Hi' in Hi. by destruct (value_check_true i Hi) as (_&?&?).
  - intros c Hc'. rewrite Hc' in Hm.
    apply andb_true_iff in Hm as [[? ?]%andb_true_iff Hs].
    split_and!; try done. by destruct (color e).
  - destruct (image e) as [i|]; [|done]. exists i. split; [done|].
    by apply value_check_true.
Qed.

Lemma saved_check_true m : saved_check m = true → saved_ok m.
Proof.
  unfold saved_check. rewrite forallb_forall. intros H k e Hk.
  assert (In (k, e) (map_to_list m)) as Hin
    by by apply list_elem_of_In, elem_of_map_to_list.
  apply H in Hin. cbn in Hin. apply andb_true_iff in Hin as [Hkey He].
  destruct (entry_check_true e He). split_and!; auto using key_check_true.
Qed.

Lemma keys_known_true m lines line k v :
  keys_known m lines = true → line ∈ lines →
  skill_line line = Some (k, v) → is_Some (m !! k).
Proof.
  unfold keys_known. rewrite forallb_forall. intros H Hin%list_elem_of_In Hl.
  apply H in Hin. rewrite Hl in Hin. by destruct (m !! k).
Qed.

Lemma nobreakb_true lines : forallb nobreakb lines = true → Forall nobreak lines.
Proof.
  rewrite forallb_forall. intros H. apply Forall_forall.
  intros l Hl%list_elem_of_In. by apply H.
Qed.

(** What is saved is what is loaded. *)
Lemma save_load_core lines m :
  Forall nobreak lines → saved_ok m →
  has_header CELL_IMAGE lines → has_header CELL_COLOR lines →
  (∀ line k v, line ∈ lines → skill_line line = Some (k, v) →
               is_Some (m !! k)) →
  parse_and_infer (rebuild_ini lines m) = (rebuild_lines m lines, m)
  ∧ rebuild_ini (rebuild_lines m lines) m = rebuild_ini lines m.
Proof.
  intros Hnb HM Hi Hc HK.
  assert (rebuild_ini (rebuild_lines m lines) m = rebuild_ini lines m) as Hid.
  { unfold rebuild_ini. do 2 f_equal.
    rewrite !rebuild_lines_scan. by apply rebuild_scan_idemp. }
  split; [|done].
  assert (splitlines (rebuild_ini lines m) = rebuild_lines m lines) as Hsplit.
  { unfold rebuild_ini. apply splitlines_join.
    - destruct lines; [|by rewrite rebuild_lines_cons].
      by destruct Hi as (?&?%elem_of_nil&_).
    - by apply rebuild_lines_nobreak. }
  unfold parse_and_infer, parse_ini. rewrite Hsplit. f_equal.
  destruct (scan_read_back m HM lines initial) as (Hb & _ & _ & His & Hcs);
    [done| |].
  { intros k e He. cbn in He. by rewrite lookup_empty in He. }
  specialize (His Hi). specialize (Hcs Hc).
  cbn [initial section] in *. rewrite <-rebuild_lines_scan in *.
  set (T := skills (parse_lines initial (rebuild_lines m lines))) in *.
  apply map_eq. intros k. rewrite lookup_apply_filename_rules.
  destruct (m !! k) as [e0|] eqn:Hk.
  2:{ destruct (T !! k) as [e|] eqn:HT; [|done].
      destruct (Hb k e HT) as (e0 & ? & _). congruence. }
  destruct (His k) as (e & e0' & HT & Hk' & Himg); [by rewrite Hk|].
  rewrite Hk in Hk'. injection Hk' as <-. rewrite HT. cbn. f_equal.
  destruct (HM k e0 Hk) as (_ & (Hcol & _ & Hcm) & i & Hi0 & Hne & _).
  rewrite infer_image_kept.
  2:{ rewrite Himg, Hi0. cbn. by destruct (String.eqb_spec i ""). }
  assert (color e = color e0 ∧ comment e = comment e0) as [Hec Hem].
  { destruct (color e0) as [v|] eqn:Hv.
    - destruct (Hcs k e0 Hk) as (e1 & e2 & H1 & H2 & H3 & H4).
      { rewrite Hv. destruct (Hcol v eq_refl) as (? & _). cbn.
        by destruct (String.eqb_spec v ""). }
      rewrite HT in H1. rewrite Hk in H2. split; congruence.
    - destruct (Hb k e HT) as (e1 & H1 & _ & [[? ?]|(_ & _ & Ht)]).
      + split; [congruence|]. destruct (comment e0) as [c|] eqn:Hc0; [|done].
        by destruct (Hcm c eq_refl) as (_ & _ & ?).
      + rewrite Hk in H1. injection H1 as <-. by rewrite Hv in Ht. }
  destruct e, e0. cbn in *. congruence.
Qed.

Lemma saveable_true lines m :
  saveable lines m = true →
  Forall nobreak lines ∧ saved_ok m
  ∧ has_header CELL_IMAGE lines ∧ has_header CELL_COLOR lines
  ∧ (∀ line k v, line ∈ lines → skill_line line = Some (k, v) →
                 is_Some (m !! k)).
Proof.
  unfold saveable.
  intros [[[[?%nobreakb_true ?%has_headerb_true]%andb_true_iff
            ?%has_headerb_true]%andb_true_iff Hk]%andb_true_iff
          ?%saved_check_true]%andb_true_iff.
  split_and!; try done. intros line k v. by apply keys_known_true.
Qed.

(** An entry keeps the checks when its colour or image is replaced by a
    checked value. *)
Lemma saved_ok_insert m k data data' :
  saved_ok m → m !! k = Some data →
  comment data' = comment data →
  (∃ v, color data' = Some v ∧ value_ok v) ∨ color data' = color data →
  (∃ i, image data' = Some i ∧ value_ok i) ∨ image data' = image data →
  saved_ok (<[k := data']> m).
Proof.
  intros HM Hk Hcm Hcol Himg k' e. rewrite lookup_insert.
  case_decide; [|apply HM]. subst k'. intros [= <-].
  destruct (HM k data Hk) as (Hkey & (Hc & Hi & Hm) & i & Hi0 & Hiv).
  split; [done|].
  assert (∃ i', image data' = Some i' ∧ value_ok i') as (i' & Hi' & Hiv').
  { destruct Himg as [?|Heq]; [done|]. exists i. by rewrite Heq. }
  split; [split_and!|eauto].
  - intros v Hv. destruct Hcol as [(v' & Hv' & ?)|Heq]; [congruence|].
    apply Hc. congruence.
  - intros i'' Hi''. rewrite Hi' in Hi''. injection Hi'' as <-.
    by destruct Hiv' as (_ & ? & ?).
  - intros c Hc'. rewrite Hcm in Hc'. destruct (Hm c Hc') as (? & ? & Hne).
    split_and!; try done.
    destruct Hcol as [(v' & -> & ?)|Heq]; [done|congruence].
Qed.

Lemma nobreak_substring i n s : nobreak s → nobreak (String.substring i n s).
Proof.
  revert i n. induction s as [|c s IH]; intros i n Hs.
  { by destruct i, n. }
  apply nobreak_cons in Hs as [Hc Hs].
  destruct i as [|i]; [destruct n as [|n]; [done|]|]; cbn [String.substring].
  - apply nobreak_cons. split; [done|]. by apply IH.
  - by apply IH.
Qed.

Lemma hex_char_upper d :
  is_hex d = true →
  Ascii.eqb d "#" = false ∧ is_space (upper_char d) = false
  ∧ is_linebreak (upper_char d) = false.
Proof. by destruct d as [[] [] [] [] [] [] [] []]. Qed.

(** The value stored after the colour dialog is a checked value. *)
Lemma picked_value_ok h old :
  valid_display h = true → (∀ o, old = Some o → nobreak o) →
  ∃ c, tk_to_ini (Some h) old = Ok (Some c) ∧ value_ok c.
Proof.
  intros Hh Hold. rewrite tk_to_ini_alpha by by destruct h.
  eexists. split; [done|].
  set (alpha := match old with Some o => _ | None => _ end).
  assert (nobreak alpha) as Ha.
  { subst alpha. destruct old as [o|]; [|done].
    destruct (startswith o "0x"); [|done]. by apply nobreak_substring, Hold. }
  destruct h as [|c h6]; [done|]. cbn [valid_display] in Hh.
  apply andb_true_iff in Hh as [[->%Ascii.eqb_eq Hl%Nat.eqb_eq]%andb_true_iff Hx].
  do 6 (destruct h6 as [|? h6]; [done|]). destruct h6; [|done].
  cbn in Hx. repeat (apply andb_true_iff in Hx as [(?&?&?)%hex_char_upper Hx]).
  simpl remove.
  repeat match goal with
         | H : Ascii.eqb _ _ = false |- _ => rewrite H; clear H
         end.
  cbv [upper PyStr.map]. split_and!.
  - done.
  - split; [done|]. rewrite <-append_assoc. apply rstrip_value; [done|].
    simpl. by repeat match goal with
                     | H : is_space _ = false |- _ => rewrite H; clear H
                     end.
  - rewrite !nobreak_app. split_and!; try done.
    rewrite !nobreak_cons. split_and!; done.
Qed.

End save_load.

(** X9: edits survive a save and a load.  For raw lines that hold both
    managed headers and a dictionary that passes the checks of [saveable]
    (stripped non-empty values, a comment only with a colour, every key of the
    lines known), parsing the saved text and applying the filename rule gives
    back the saved lines and the same dictionary, and saving those gives the
    same text. *)
Theorem save_load_round_trip lines m :
  saveable lines m = true →
  parse_and_infer (rebuild_ini lines m) = (rebuild_lines m lines, m)
  ∧ rebuild_ini (rebuild_lines m lines) m = rebuild_ini lines m.
Proof.
  intros (?&?&?&?&?)%saveable_true. by apply save_load_core.
Qed.

Lemma save_load_round_trip_witness :
  parse_and_infer (rebuild_ini sample_lines sample_skills)
  = (rebuild_lines sample_skills sample_lines, sample_skills).
Proof.
  exact (proj1 (save_load_round_trip sample_lines sample_skills eq_refl)).
Defined.


(** X11: a colour picked in the dialog survives a save and a load: from a
    saveable state, picking a display colour of six hex digits for a known row
    stores a colour for that row, and the new dictionary is read back
    unchanged from the saved text. *)
Theorem picked_color_round_trip lines m sid data h :
  saveable lines m = true → m !! sid = Some data →
  valid_display h = true →
  ∃ m' c, PluginEditor.open_color_picker_for_row sid (Some h) m = Ok m'
          ∧ m' !! sid = Some (set_color (Some c) data)
          ∧ tk_to_ini (Some h) (color data) = Ok (Some c)
          ∧ parse_and_infer (rebuild_ini lines m') = (rebuild_lines m' lines, m').
Proof.
  intros (Hnb & HM & Hi & Hc & HK)%saveable_true Hsid Hh.
  destruct (HM sid data Hsid) as (_ & (Hcol & _) & _).
  destruct (picked_value_ok h (color data) Hh) as (c & Hc' & Hcv).
  { intros o Ho. by destruct (Hcol o Ho) as (_ & _ & ?). }
  unfold PluginEditor.open_color_picker_for_row. rewrite Hsid.
  destruct (ini_to_tk_total (color data)) as [d ->]. cbn [mbind result_bind].
  assert (truthy (Some h) = true) as -> by by destruct h.
  rewrite Hc'. cbn [mbind result_bind].
  eexists _, c. split; [done|]. split; [by rewrite lookup_insert_eq|].
  split; [done|]. apply save_load_core; try done.
  - eapply saved_ok_insert; eauto.
  - intros line k v Hin Hl. rewrite lookup_insert. case_decide; [eauto|].
    by eapply HK.
Qed.

Lemma picked_color_round_trip_witness :
  ∃ m' c,
    PluginEditor.open_color_picker_for_row "Skill0001" (Some "#ffaa00")
      sample_skills = Ok m'
    ∧ m' !! "Skill0001"
      = Some (set_color (Some c)
                (Entry None (Some "old.bmp") (Some "0x80112233")))
    ∧ tk_to_ini (Some "#ffaa00") (Some "0x80112233") = Ok (Some c)
    ∧ parse_and_infer (rebuild_ini sample_lines m')
      = (rebuild_lines m' sample_lines, m').
Proof.
  exact (picked_color_round_trip sample_lines sample_skills "Skill0001"
           (Entry None (Some "old.bmp") (Some "0x80112233")) "#ffaa00"
           eq_refl eq_refl eq_refl).
Defined.

(** X12: the edit window stores both fields stripped; when neither is empty
    after stripping and neither holds a line boundary, the edited dictionary
    is read back unchanged from the saved text. *)
Theorem save_changes_round_trip lines m sid data img_text color_text :
  saveable lines m = true → m !! sid = Some data →
  nobreakb img_text = true → nobreakb color_text = true →
  strip img_text ≠ "" → strip color_text ≠ "" →
  ∃ m', PluginEditor.save_changes sid img_text color_text m = Some m'
        ∧ m' !! sid = Some (Entry (comment data) (Some (strip img_text))
                              (Some (strip color_text)))
        ∧ parse_and_infer (rebuild_ini lines m') = (rebuild_lines m' lines, m').
Proof.
  intros (Hnb & HM & Hi & Hc & HK)%saveable_true Hsid Hin Hcn Hine Hcne.
  unfold PluginEditor.save_changes. rewrite Hsid.
  eexists. split; [done|]. split; [by rewrite lookup_insert_eq|].
  apply save_load_core; try done.
  - eapply saved_ok_insert; [done..| |]; left; eexists; (split; [done|]);
      split_and!; auto using strip_trimmed, nobreak_strip.
  - intros line k v Hl Hs. rewrite lookup_insert. case_decide; [eauto|].
    by eapply HK.
Qed.

Lemma save_changes_round_trip_witness :
  ∃ m', PluginEditor.save_changes "Skill0003" " ice.bmp " "0xff0000ff"
          sample_skills = Some m'
        ∧ m' !! "Skill0003"
          = Some (Entry None (Some "ice.bmp") (Some "0xff0000ff"))
        ∧ parse_and_infer (rebuild_ini sample_lines m')
          = (rebuild_lines m' sample_lines, m').
Proof.
  refine (save_changes_round_trip sample_lines sample_skills "Skill0003"
            (Entry None (Some "skill0003.bmp") None) " ice.bmp " "0xff0000ff"
            eq_refl eq_refl eq_refl eq_refl _ _); discriminate.
Defined.

(** An emptied colour is not saveable: the row loses its colour line, and
    its comment is not read back. *)
Example save_changes_empty_color :
  ∃ m', PluginEditor.save_changes "Skill0002" "fire.bmp" "" sample_skills
        = Some m'
        ∧ saveable sample_lines m' = false
        ∧ (parse_and_infer (rebuild_ini sample_lines m')).2 !! "Skill0002"
          = Some (Entry None (Some "fire.bmp") None).
Proof. eexists. split; [reflexivity|]. split; by vm_compute. Qed.

(** ** The pipette and the files *)

Section files.

Implicit Types (fs : gmap string string) (app : PluginEditor.t).

Lemma on_move_eq r g b data :
  PluginEditor.on_move r g b data
  = set_color (Some ("0x" +:+ alpha_of (color data) +:+ format_02X r
                     +:+ format_02X g +:+ format_02X b)) data.
Proof. unfold PluginEditor.on_move. by rewrite rgb_to_ini_eq. Qed.

Lemma on_move_twice r1 g1 b1 r2 g2 b2 data :
  is_byte r1 = true → is_byte g1 = true → is_byte b1 = true →
  PluginEditor.on_move r2 g2 b2 (PluginEditor.on_move r1 g1 b1 data)
  = PluginEditor.on_move r2 g2 b2 data.
Proof.
  intros Hr Hg Hb.
  pose proof (rgb_to_ini_again r1 g1 b1 r2 g2 b2 (color data) Hr Hg Hb) as H.
  rewrite !rgb_to_ini_eq in H. cbn [mbind result_bind] in H.
  rewrite rgb_to_ini_eq in H.
  rewrite !on_move_eq. unfold set_color. cbn [comment image color].
  congruence.
Qed.

Lemma append_longer s t : t ≠ "" → s +:+ t ≠ s.
Proof.
  intros Ht Heq. apply (f_equal String.length) in Heq.
  rewrite length_append in Heq. destruct t; [done|]. simpl in Heq. lia.
Qed.

Lemma truthy_path app path :
  PluginEditor.file_path app = Some path → path ≠ "" →
  truthy (PluginEditor.file_path app) = true.
Proof. intros -> Hp. cbn. by destruct (String.eqb_spec path ""). Qed.

Lemma save_ini_eq app fs path :
  PluginEditor.file_path app = Some path → path ≠ "" →
  PluginEditor.save_ini app fs
  = <[path := rebuild_ini (PluginEditor.original_lines app)
                (PluginEditor.skills app)]>
      (match fs !! (path +:+ ".bak") with
       | Some _ => fs
       | None => <[path +:+ ".bak" :=
                     join_lines (PluginEditor.original_lines app)]> fs
       end).
Proof.
  intros H Hp. unfold PluginEditor.save_ini.
  rewrite (truthy_path app path) by done. by rewrite H.
Qed.

(** [splitlines] after ["\n".join(lines)]: a final empty line is dropped. *)
Lemma splitlines_single x :
  nobreak x → splitlines x = if decide (x = "") then [] else [x].
Proof.
  induction x as [|c x IH]; [done|]. intros [Hc Hx]%nobreak_cons.
  cbn [splitlines]. rewrite Hc, (IH Hx). by case_decide; subst.
Qed.

Lemma join_lines_cons l lines :
  lines ≠ [] →
  join_lines (l :: lines) = l +:+ String LF (join_lines lines).
Proof. by destruct lines. Qed.

Lemma splitlines_join_snoc lines x :
  Forall nobreak lines → nobreak x →
  splitlines (join_lines (lines ++ [x]))
  = lines ++ (if decide (x = "") then [] else [x]).
Proof.
  intros Hl Hx. induction Hl as [|l lines Hnl _ IH].
  { by apply splitlines_single. }
  cbn [app]. rewrite join_lines_cons by by destruct lines.
  by rewrite splitlines_line, IH.
Qed.

Lemma parse_join_lines lines :
  Forall nobreak lines →
  skills (parse_lines initial (splitlines (join_lines lines)))
  = skills (parse_lines initial lines)
  ∧ (splitlines (join_lines lines) = lines
     ∨ splitlines (join_lines lines) ++ [""] = lines).
Proof.
  intros Hnb. induction lines as [|x lines _] using rev_ind;
    [split; [done|by left]|].
  apply Forall_app in Hnb as [Hl [Hx _]%Forall_cons].
  rewrite splitlines_join_snoc by done.
  case_decide as Hx0; [|split; [done|by left]]. subst.
  rewrite app_nil_r. split; [|by right].
  by rewrite parse_lines_app.
Qed.

End files.

(** X13: during a pipette session, every move of the pointer over byte
    pixels replaces the colour of the row, and after any number of moves the
    row is what the last move alone would have made it: the alpha of the
    value before the session and the last pixel. *)
Theorem pipette_last_sample samples r g b data :
  Forall (λ s, is_byte s.1.1 = true ∧ is_byte s.1.2 = true
               ∧ is_byte s.2 = true) samples →
  fold_left (λ d s, PluginEditor.on_move s.1.1 s.1.2 s.2 d)
    (samples ++ [(r, g, b)]) data
  = PluginEditor.on_move r g b data.
Proof.
  intros Hs. revert data.
  induction Hs as [|[[r1 g1] b1] samples (Hr & Hg & Hb) _ IH]; intros data;
    [done|].
  cbn [app fold_left]. rewrite IH. cbn [fst snd]. by apply on_move_twice.
Qed.

Lemma pipette_last_sample_witness :
  fold_left (λ d s, PluginEditor.on_move s.1.1 s.1.2 s.2 d)
    ([(1, 2, 3); (200, 100, 0)] ++ [(255, 10, 0)])%N
    (Entry None (Some "a.bmp") (Some "0x80112233"))
  = PluginEditor.on_move 255 10 0
      (Entry None (Some "a.bmp") (Some "0x80112233")).
Proof.
  refine (pipette_last_sample [(1, 2, 3); (200, 100, 0)]%N 255 10 0 _ _).
  repeat constructor.
Defined.

(** X14: [save_ini] writes the backup once.  With a file loaded, a first
    save leaves a backup in place, a later save, whatever was edited in
    between, does not change it; the later save puts the rebuilt text of its
    own state at the path, and no path other than these two is touched. *)
Theorem save_ini_backup_once app1 app2 fs path :
  PluginEditor.file_path app1 = Some path →
  PluginEditor.file_path app2 = Some path →
  path ≠ "" →
  let fs1 := PluginEditor.save_ini app1 fs in
  let fs2 := PluginEditor.save_ini app2 fs1 in
  fs1 !! (path +:+ ".bak")
  = Some (default (join_lines (PluginEditor.original_lines app1))
            (fs !! (path +:+ ".bak")))
  ∧ fs2 !! (path +:+ ".bak") = fs1 !! (path +:+ ".bak")
  ∧ fs2 !! path
    = Some (rebuild_ini (PluginEditor.original_lines app2)
              (PluginEditor.skills app2))
  ∧ (∀ p, p ≠ path → p ≠ path +:+ ".bak" → fs2 !! p = fs !! p).
Proof.
  intros H1 H2 Hp. cbn zeta.
  rewrite (save_ini_eq app2 _ path), (save_ini_eq app1 _ path) by done.
  assert (path +:+ ".bak" ≠ path) as Hne by by apply append_longer.
  assert (∀ v (f : gmap string string),
            (<[path := v]> f) !! (path +:+ ".bak") = f !! (path +:+ ".bak"))
    as Hskip by (intros; by rewrite lookup_insert_ne).
  rewrite !Hskip.
  destruct (fs !! (path +:+ ".bak")) as [bak|] eqn:Hbak; cbn [default].
  - rewrite Hbak. rewrite !Hskip, Hbak. split_and!; try done.
    + by rewrite lookup_insert_eq.
    + intros p ? ?. by rewrite !lookup_insert_ne.
  - rewrite lookup_insert_eq. rewrite !Hskip, lookup_insert_eq.
    split_and!; try done.
    + by rewrite lookup_insert_eq.
    + intros p ? ?. by rewrite !lookup_insert_ne.
Qed.

Lemma save_ini_backup_once_witness :
  PluginEditor.save_ini
    (PluginEditor.Editor (Some "plugin.ini") sample_lines sample_skills)
    (PluginEditor.save_ini
       (PluginEditor.load_ini "plugin.ini" sample_text PluginEditor.init) ∅)
    !! "plugin.ini.bak"
  = PluginEditor.save_ini
      (PluginEditor.load_ini "plugin.ini" sample_text PluginEditor.init) ∅
      !! "plugin.ini.bak".
Proof.
  refine (proj1 (proj2 (save_ini_backup_once
    (PluginEditor.load_ini "plugin.ini" sample_text PluginEditor.init)
    (PluginEditor.Editor (Some "plugin.ini") sample_lines sample_skills)
    ∅ "plugin.ini" eq_refl eq_refl _))).
  discriminate.
Defined.

(** X15: saving twice in a row is saving once: [save_ini] on the file
    system it has just written changes nothing, and without a loaded file it
    changes nothing at all. *)
Theorem save_ini_idempotent app fs :
  PluginEditor.save_ini app (PluginEditor.save_ini app fs)
  = PluginEditor.save_ini app fs
  ∧ (truthy (PluginEditor.file_path app) = false →
     PluginEditor.save_ini app fs = fs).
Proof.
  destruct (truthy (PluginEditor.file_path app)) eqn:Ht.
  2:{ unfold PluginEditor.save_ini. rewrite Ht. by split. }
  split; [|done].
  destruct (PluginEditor.file_path app) as [path|] eqn:Hpath; [|done].
  assert (path ≠ "") as Hp by (intros ->; done).
  rewrite !(save_ini_eq app _ path) by done.
  assert (path +:+ ".bak" ≠ path) as Hne by by apply append_longer.
  rewrite (lookup_insert_ne _ path) by done.
  destruct (fs !! (path +:+ ".bak")) as [bak|] eqn:Hbak.
  - rewrite Hbak. by rewrite insert_insert_eq.
  - rewrite lookup_insert_eq. by rewrite insert_insert_eq.
Qed.

Lemma save_ini_idempotent_witness :
  PluginEditor.save_ini PluginEditor.init {[ "plugin.ini" := "x" ]}
  = {[ "plugin.ini" := "x" ]}.
Proof.
  exact (proj2 (save_ini_idempotent PluginEditor.init
                  {[ "plugin.ini" := "x" ]}) eq_refl).
Defined.

(** X16: the backup written by the first save after a load holds the lines
    as loaded, joined by newlines: read as a text it has the lines of the
    loaded text, but for one empty line at the end, and it parses to the same
    dictionary. *)
Theorem backup_parses_like_original path text fs :
  path ≠ "" → fs !! (path +:+ ".bak") = None →
  let app := PluginEditor.load_ini path text PluginEditor.init in
  ∃ bak,
    PluginEditor.save_ini app fs !! (path +:+ ".bak") = Some bak
    ∧ bak = join_lines (splitlines text)
    ∧ (parse_ini bak).2 = (parse_ini text).2
    ∧ (splitlines bak = splitlines text
       ∨ splitlines bak ++ [""] = splitlines text).
Proof.
  intros Hp Hbak. cbn zeta.
  assert (PluginEditor.load_ini path text PluginEditor.init
          = PluginEditor.Editor (Some path) (splitlines text)
              (apply_filename_rules (parse_ini text).2)) as ->.
  { unfold PluginEditor.load_ini. cbn [truthy].
    by destruct (String.eqb_spec path ""). }
  rewrite (save_ini_eq
             (PluginEditor.Editor (Some path) (splitlines text)
                (apply_filename_rules (parse_ini text).2))
             fs path eq_refl Hp), Hbak.
  rewrite lookup_insert_ne by (intros ?; by eapply (append_longer path ".bak")).
  rewrite lookup_insert_eq. eexists. split; [done|].
  cbn [PluginEditor.original_lines]. split; [done|].
  unfold parse_ini. cbn [snd].
  apply parse_join_lines, splitlines_nobreak.
Qed.

Lemma backup_parses_like_original_witness :
  ∃ bak,
    PluginEditor.save_ini
      (PluginEditor.load_ini "plugin.ini" sample_text PluginEditor.init) ∅
      !! "plugin.ini.bak" = Some bak
    ∧ bak = join_lines (splitlines sample_text)
    ∧ (parse_ini bak).2 = (parse_ini sample_text).2
    ∧ (splitlines bak = splitlines sample_text
       ∨ splitlines bak ++ [""] = splitlines sample_text).
Proof.
  refine (backup_parses_like_original "plugin.ini" sample_text ∅ _ eq_refl).
  discriminate.
Defined.

(** The backup is not the loaded text byte for byte: the final newline is
    not written. *)
Example backup_drops_final_newline :
  PluginEditor.save_ini
    (PluginEditor.load_ini "plugin.ini" sample_text PluginEditor.init) ∅
    !! "plugin.ini.bak" ≠ Some sample_text.
Proof. by vm_compute. Qed.
